(** * KoSpeech decoding loop: [kospeech/decode/search.py]

    A shallow embedding of [GreedySearch] and [BeamSearch] and the
    properties of the evaluation loop they share.

    Python objects that [search.py] mutates (the strategy instance, the
    model, the queue) are threaded explicitly; what the file only calls
    (model inference, the error-rate metrics, the vocabulary) is gathered
    in the [Collaborators] class. *)

From Stdlib Require Import ZArith List String Bool Lia.
Import ListNotations.

Local Open Scope Z_scope.
Local Open Scope list_scope.

Set Implicit Arguments.

(** ** Models *)

(** The concrete type of an [nn.Module]: the three architectures
    [search.py] imports, or any other class, known by its qualified name
    and its base classes. *)
#[local] Set Warnings "-register-all".
Inductive pyclass : Type :=
| ListenAttendSpell
| SpeechTransformer
| DeepSpeech2
| OtherClass (name : string) (bases : list pyclass).
#[local] Set Warnings "register-all".

(** The terminal decoding stage of a model.  [TopKDecoder decoder k] is the
    constructor call of [BeamSearch.search]. *)
Inductive decoder_t : Type :=
| Decoder (name : string)
| TopKDecoder (decoder : decoder_t) (k : Z).

(** The part of a network's state that [search.py] reads or writes:
    its class, its [decoder] attribute (the networks meant here are those
    that have one, with [set_decoder] to replace it), the training flag
    that [eval()] clears and the device that [to(device)] sets. *)
Record module : Type := {
  m_class : pyclass;
  decoder : decoder_t;
  training : bool;
  m_device : string
}.

(** A model is a network, bare or held in the [module] attribute of an
    [nn.DataParallel] wrapper. *)
Inductive model : Type :=
| Bare (m : module)
| DataParallel (m : module).

Definition same_class (c d : pyclass) : bool :=
  match c, d with
  | ListenAttendSpell, ListenAttendSpell => true
  | SpeechTransformer, SpeechTransformer => true
  | DeepSpeech2, DeepSpeech2 => true
  | OtherClass a _, OtherClass b _ => String.eqb a b
  | _, _ => false
  end.

(** [issubclass(c, d)]: [c] is [d] or has [d] among the classes it
    inherits from. *)
Fixpoint issubclass (c d : pyclass) : bool :=
  same_class c d ||
  match c with
  | OtherClass _ bases => existsb (fun b => issubclass b d) bases
  | _ => false
  end.

(** [isinstance(m, c)]: the class of [m] is [c] or a subclass of [c]. *)
Definition isinstance (m : module) (c : pyclass) : bool :=
  issubclass (m_class m) c.

Definition qualname (c : pyclass) : string :=
  match c with
  | ListenAttendSpell => "kospeech.models.las.model.ListenAttendSpell"
  | SpeechTransformer => "kospeech.models.transformer.model.SpeechTransformer"
  | DeepSpeech2 => "kospeech.models.deepspeech2.model.DeepSpeech2"
  | OtherClass name _ => name
  end.

(** [str(type(x))] *)
Definition type_repr (c : pyclass) : string :=
  ("<class '" ++ qualname c ++ "'>")%string.

(** [set_decoder(decoder)] replaces the decoding stage. *)
Definition set_decoder (m : module) (d : decoder_t) : module :=
  {| m_class := m_class m; decoder := d;
     training := training m; m_device := m_device m |}.

Definition module_eval (m : module) : module :=
  {| m_class := m_class m; decoder := decoder m;
     training := false; m_device := m_device m |}.

Definition module_to (device : string) (m : module) : module :=
  {| m_class := m_class m; decoder := decoder m;
     training := training m; m_device := device |}.

(** [model.eval()] and [model.to(device)] reach the wrapped network. *)
Definition model_eval (mdl : model) : model :=
  match mdl with
  | Bare m => Bare (module_eval m)
  | DataParallel m => DataParallel (module_eval m)
  end.

Definition model_to (device : string) (mdl : model) : model :=
  match mdl with
  | Bare m => Bare (module_to device m)
  | DataParallel m => DataParallel (module_to device m)
  end.

(** ** Tensors, calls and values *)

(** A two-dimensional tensor of label ids, one row per batch element. *)
Definition tensor : Type := list (list Z).

(** The three call conventions of [model.inference]. *)
Inductive infer_call (inputs_t : Type) : Type :=
| InferLAS (inputs : inputs_t) (input_lengths : list Z) (device : string)
| InferTransformer (inputs : inputs_t) (input_lengths : list Z)
| InferDeepSpeech2 (inputs : inputs_t) (input_lengths : list Z)
                   (blank_label : Z).

Inductive metric_kind : Type :=
| CharacterErrorRate
| WordErrorRate.

(** What [search.py] does not define.  A metric object is callable and may
    keep state between calls, so the value of a call is a function of the
    metric class, its vocabulary, the earlier calls and the arguments. *)
Class Collaborators : Type := {
  vocab : Type;
  vocab_len : vocab -> Z;
  label_to_string : vocab -> list Z -> string;
  feature : Type;
  pyfloat : Type;
  model_exn : Type;
  inference : model -> infer_call (list feature) -> model_exn + tensor;
  error_rate : metric_kind -> vocab -> list (tensor * tensor) ->
               tensor -> tensor -> pyfloat
}.

Section Search.

Context {C : Collaborators}.

(** The value of the local [cer]: the integer [0] it starts with, or the
    float a metric call returned. *)
Inductive pynum : Type :=
| PyInt (z : Z)
| PyFloat (f : pyfloat).

Inductive exn : Type :=
| ValueError (msg : string)
| IndexError
| ZeroDivisionError
| ModelError (e : model_exn).

(** One item of the queue: [(inputs, targets, input_lengths,
    target_lengths)]; [inputs] holds one entry per batch element. *)
Record batch : Type := {
  inputs : list feature;
  targets : tensor;
  input_lengths : list Z;
  target_lengths : list Z
}.

(** The metric instance built by the constructor, with the calls made on
    it so far. *)
Record metric_obj : Type := {
  metric_class : metric_kind;
  metric_vocab : vocab;
  metric_calls : list (tensor * tensor)
}.

Record GreedySearch : Type := {
  target_list : list string;
  predict_list : list string;
  self_vocab : vocab;
  metric : metric_obj
}.

(** A [BeamSearch] instance: the inherited attributes and [k]. *)
Record BeamSearch : Type := {
  super : GreedySearch;
  k : Z
}.

(** What a run does to the outside: batches taken from the queue, calls of
    [model.inference], lines given to [logger.info]. *)
Inductive event : Type :=
| EvGet (b : batch)
| EvInference (c : infer_call (list feature))
| EvLog (cer : pynum).

(** ** Constructors *)

Definition GreedySearch_init (v : vocab) (metric : string)
  : exn + GreedySearch :=
  if String.eqb metric "char" then
    inr {| target_list := []; predict_list := []; self_vocab := v;
           metric := {| metric_class := CharacterErrorRate;
                        metric_vocab := v; metric_calls := [] |} |}
  else if String.eqb metric "word" then
    inr {| target_list := []; predict_list := []; self_vocab := v;
           metric := {| metric_class := WordErrorRate;
                        metric_vocab := v; metric_calls := [] |} |}
  else inl (ValueError ("Unsupported metric : " ++ metric)%string).

(** [BeamSearch.__init__(self, vocab, k)] calls the parent constructor with
    [vocab] alone, so [metric] takes its default ['char']. *)
Definition BeamSearch_init (v : vocab) (k : Z) : exn + BeamSearch :=
  match GreedySearch_init v "char" with
  | inl e => inl e
  | inr g => inr {| super := g; k := k |}
  end.

(** ** The loop state and its monad *)

Record state : Type := {
  st_self : GreedySearch;
  st_trace : list event
}.

Definition M (A : Type) : Type := state -> (exn + A) * state.

Definition ret {A} (a : A) : M A := fun s => (inr a, s).

Definition raise {A} (e : exn) : M A := fun s => (inl e, s).

Definition bind {A B} (m : M A) (f : A -> M B) : M B :=
  fun s => match m s with
           | (inl e, s') => (inl e, s')
           | (inr a, s') => f a s'
           end.

Notation "x <- m ;; f" := (bind m (fun x => f))
  (at level 61, m at next level, right associativity).
Notation "m ;;; f" := (bind m (fun _ => f))
  (at level 61, right associativity).

Definition emit (e : event) : M unit :=
  fun s => (inr tt, {| st_self := st_self s; st_trace := st_trace s ++ [e] |}).

Definition lift {A} (r : exn + A) : M A :=
  match r with
  | inl e => raise e
  | inr a => ret a
  end.

Definition get_vocab : M vocab := fun s => (inr (self_vocab (st_self s)), s).

Definition target_list_append (x : string) : M unit :=
  fun s => (inr tt,
            {| st_self := {| target_list := target_list (st_self s) ++ [x];
                          predict_list := predict_list (st_self s);
                          self_vocab := self_vocab (st_self s);
                          metric := metric (st_self s) |};
               st_trace := st_trace s |}).

Definition predict_list_append (x : string) : M unit :=
  fun s => (inr tt,
            {| st_self := {| target_list := target_list (st_self s);
                          predict_list := predict_list (st_self s) ++ [x];
                          self_vocab := self_vocab (st_self s);
                          metric := metric (st_self s) |};
               st_trace := st_trace s |}).

(** [t[idx]]: a row of the tensor, [IndexError] out of range. *)
Definition getitem (t : tensor) (idx : nat) : M (list Z) :=
  match nth_error t idx with
  | Some row => ret row
  | None => raise IndexError
  end.

(** [self.metric(targets, y_hats)]: the call is added to the metric's
    history and its value returned. *)
Definition metric_call (m : metric_obj) (t y_hats : tensor)
  : pyfloat * metric_obj :=
  (error_rate (metric_class m) (metric_vocab m) (metric_calls m) t y_hats,
   {| metric_class := metric_class m; metric_vocab := metric_vocab m;
      metric_calls := metric_calls m ++ [(t, y_hats)] |}).

Definition call_metric (t y_hats : tensor) : M pyfloat :=
  fun s => let (v, m') := metric_call (metric (st_self s)) t y_hats in
           (inr v,
            {| st_self := {| target_list := target_list (st_self s);
                          predict_list := predict_list (st_self s);
                          self_vocab := self_vocab (st_self s);
                          metric := m' |};
               st_trace := st_trace s |}).

Definition call_inference (mdl : model) (c : infer_call (list feature))
  : M tensor :=
  emit (EvInference c) ;;;
  match inference mdl c with
  | inl e => raise (ModelError e)
  | inr hypothesis => ret hypothesis
  end.

(** ** [GreedySearch.search] *)

(** Lines 37-54: the architecture tag, or the [ValueError] raised before
    anything else happens. *)
Definition identify (mdl : model) : exn + string :=
  match mdl with
  | DataParallel m =>
      if isinstance m ListenAttendSpell then inr "las"%string
      else if isinstance m SpeechTransformer then inr "transformer"%string
      else if isinstance m DeepSpeech2 then inr "deepspeech2"%string
      else inl (ValueError
                  ("Unsupported architecture : " ++ type_repr (m_class m))%string)
  | Bare m =>
      if isinstance m ListenAttendSpell then inr "las"%string
      else if isinstance m SpeechTransformer then inr "transformer"%string
      else if isinstance m DeepSpeech2 then inr "deepspeech2"%string
      else inl (ValueError
                  ("Unsupported architecture : " ++ type_repr (m_class m))%string)
  end.

(** Lines 67-74: the arguments [model.inference] is called with. *)
Definition select_inference (architecture : string) (v : vocab)
    (inputs : list feature) (input_lengths : list Z) (device : string)
  : exn + infer_call (list feature) :=
  if String.eqb architecture "las" then
    inr (InferLAS inputs input_lengths device)
  else if String.eqb architecture "transformer" then
    inr (InferTransformer inputs input_lengths)
  else if String.eqb architecture "deepspeech2" then
    inr (InferDeepSpeech2 inputs input_lengths (vocab_len v))
  else inl (ValueError
              ("Unsupported architecture : " ++ architecture)%string).

(** Lines 76-82, over the indices [range(targets.size(0))]. *)
Fixpoint record_pairs (targets hypothesis : tensor) (idxs : list nat)
  : M unit :=
  match idxs with
  | [] => ret tt
  | idx :: idxs' =>
      v <- get_vocab ;;
      t <- getitem targets idx ;;
      target_list_append (label_to_string v t) ;;;
      h <- getitem hypothesis idx ;;
      predict_list_append (label_to_string v h) ;;;
      record_pairs targets hypothesis idxs'
  end.

(** [targets[:, 1:]] *)
Definition drop_first_column (t : tensor) : tensor := map (@tl Z) t.

(** Lines 64-90: one turn of the loop on a batch that is not the sentinel.
    The moves of [inputs] and [targets] to the device leave their contents
    as they are.  Returns the new [cer]. *)
Definition loop_body (architecture : string) (mdl : model) (device : string)
    (print_every timestep : Z) (b : batch) : M pynum :=
  v <- get_vocab ;;
  c <- lift (select_inference architecture v (inputs b) (input_lengths b)
                              device) ;;
  hypothesis <- call_inference mdl c ;;
  record_pairs (targets b) hypothesis (seq 0 (List.length (targets b))) ;;;
  cer <- call_metric (drop_first_column (targets b)) hypothesis ;;
  (if print_every =? 0 then raise ZeroDivisionError
   else if timestep mod print_every =? 0 then emit (EvLog (PyFloat cer))
   else ret tt) ;;;
  ret (PyFloat cer).

(** How a call ends: with a value, with an exception, or not at all
    ([queue.get()] on a queue that stays empty). *)
Inductive outcome (A : Type) : Type :=
| Returned (a : A)
| Raised (e : exn)
| Blocked.
Arguments Raised {A} e.
Arguments Blocked {A}.

(** Lines 59-92.  Each turn takes one batch, so the loop is a recursion on
    the content of the queue; the third component is what is left in it. *)
Fixpoint loop (architecture : string) (mdl : model) (device : string)
    (print_every : Z) (queue : list batch)
    (cer : pynum) (total_sent_num timestep : Z) (s : state)
  : outcome pynum * state * list batch :=
  match queue with
  | [] => (Blocked, s, [])
  | b :: queue' =>
      let s1 := {| st_self := st_self s; st_trace := st_trace s ++ [EvGet b] |} in
      if Nat.eqb (List.length (inputs b)) 0 then (Returned cer, s1, queue')
      else
        match loop_body architecture mdl device print_every timestep b s1 with
        | (inl e, s2) => (Raised e, s2, queue')
        | (inr cer', s2) =>
            loop architecture mdl device print_every queue' cer'
                 (total_sent_num + Z.of_nat (List.length (targets b)))
                 (timestep + 1) s2
        end
  end.

(** What a call of [search] leaves behind. *)
Record result : Type := {
  res_outcome : outcome pynum;
  res_self : GreedySearch;
  res_model : model;
  res_queue : list batch;
  res_trace : list event
}.

Definition GreedySearch_search (self : GreedySearch) (mdl : model)
    (queue : list batch) (device : string) (print_every : Z) : result :=
  let cer := PyInt 0 in
  let total_sent_num := 0 in
  let timestep := 0 in
  match identify mdl with
  | inl e =>
      {| res_outcome := Raised e; res_self := self; res_model := mdl;
         res_queue := queue; res_trace := [] |}
  | inr architecture =>
      let mdl := model_to device (model_eval mdl) in
      match loop architecture mdl device print_every queue
                 cer total_sent_num timestep
                 {| st_self := self; st_trace := [] |} with
      | (o, s, queue') =>
          {| res_outcome := o; res_self := st_self s; res_model := mdl;
             res_queue := queue'; res_trace := st_trace s |}
      end
  end.

(** ** [save_result] *)

(** The file that [to_csv(save_path, index=False, encoding='cp949')] is
    asked to write: the two named columns of the data frame. *)
Record csv_file : Type := {
  csv_path : string;
  csv_encoding : string;
  csv_columns : list (string * list string)
}.

(** [save_result] reads the two lists; the instance is returned as it was
    found. *)
Definition save_result (self : GreedySearch) (save_path : string)
  : GreedySearch * csv_file :=
  let results := [("targets"%string, target_list self);
                  ("predictions"%string, predict_list self)] in
  (self, {| csv_path := save_path; csv_encoding := "cp949";
            csv_columns := results |}).

(** ** [BeamSearch.search] *)

Definition BeamSearch_search (self : BeamSearch) (mdl : model)
    (queue : list batch) (device : string) (print_every : Z) : result :=
  match mdl with
  | DataParallel m =>
      let topk_decoder := TopKDecoder (decoder m) (k self) in
      let mdl := DataParallel (set_decoder m topk_decoder) in
      GreedySearch_search (super self) mdl queue device print_every
  | Bare m =>
      let topk_decoder := TopKDecoder (decoder m) (k self) in
      let mdl := Bare (set_decoder m topk_decoder) in
      GreedySearch_search (super self) mdl queue device print_every
  end.

(** ** The specification's reading of the beam strategy *)

(** The network behind a possible multi-device wrapper. *)
Definition unwrap (mdl : model) : module :=
  match mdl with
  | Bare m => m
  | DataParallel m => m
  end.

Definition map_module (f : module -> module) (mdl : model) : model :=
  match mdl with
  | Bare m => Bare (f m)
  | DataParallel m => DataParallel (f m)
  end.

(** "construct a top-k decoding adapter wrapping the model's terminal
    decoding stage, parameterized by beam width k, and install it into the
    model (again unwrapping a multi-device wrapper transparently)" *)
Definition install_topk (k : Z) (mdl : model) : model :=
  map_module (fun m => set_decoder m (TopKDecoder (decoder m) k)) mdl.

(** "before delegating to the identical loop logic" *)
Definition BeamSearch_search_spec (self : BeamSearch) (mdl : model)
    (queue : list batch) (device : string) (print_every : Z) : result :=
  GreedySearch_search (super self) (install_topk (k self) mdl)
                      queue device print_every.

(** ** Vocabulary of the statements *)

(** The sentinel: [inputs.shape[0] == 0]. *)
Definition is_sentinel (b : batch) : bool :=
  Nat.eqb (List.length (inputs b)) 0.


(** The class is one of the three architectures or inherits from one. *)
Definition recognized (c : pyclass) : bool :=
  issubclass c ListenAttendSpell || issubclass c SpeechTransformer ||
  issubclass c DeepSpeech2.

Definition known_tag (architecture : string) : Prop :=
  architecture = "las"%string \/ architecture = "transformer"%string \/
  architecture = "deepspeech2"%string.

(** The hypothesis tensor that inference yields for a batch, when it
    yields one. *)
Definition infers (architecture : string) (mdl : model) (device : string)
    (v : vocab) (b : batch) (hypothesis : tensor) : Prop :=
  exists c,
    select_inference architecture v (inputs b) (input_lengths b) device
      = inr c /\
    inference mdl c = inr hypothesis.


(** The batch indices at which a line was logged: a log line belongs to
    the batch fetched last, and [fetched] counts the batches fetched so
    far. *)
Fixpoint log_indices_from (fetched : nat) (tr : list event) : list nat :=
  match tr with
  | [] => []
  | EvGet _ :: tr' => log_indices_from (S fetched) tr'
  | EvLog _ :: tr' => Nat.pred fetched :: log_indices_from fetched tr'
  | EvInference _ :: tr' => log_indices_from fetched tr'
  end.

Definition log_indices (tr : list event) : list nat := log_indices_from 0 tr.

Fixpoint inference_calls (tr : list event) : list (infer_call (list feature)) :=
  match tr with
  | [] => []
  | EvInference c :: tr' => c :: inference_calls tr'
  | _ :: tr' => inference_calls tr'
  end.

Definition divisible_by (P : Z) (i : nat) : bool := Z.of_nat i mod P =? 0.

(** ** Reference run *)

Definition set_lists (g : GreedySearch) (tl pl : list string) : GreedySearch :=
  {| target_list := tl; predict_list := pl;
     self_vocab := self_vocab g; metric := metric g |}.

Definition emitted (s : state) (e : event) : state :=
  {| st_self := st_self s; st_trace := st_trace s ++ [e] |}.

(** The instance after a batch went through lines 76-84. *)
Definition scored (g : GreedySearch) (b : batch) (hypothesis : tensor)
  : GreedySearch :=
  {| target_list :=
       target_list g ++ map (label_to_string (self_vocab g)) (targets b);
     predict_list :=
       predict_list g ++
         map (label_to_string (self_vocab g))
             (firstn (List.length (targets b)) hypothesis);
     self_vocab := self_vocab g;
     metric := snd (metric_call (metric g) (drop_first_column (targets b))
                                hypothesis) |}.

(** The value the metric call on a batch returns. *)
Definition batch_cer (g : GreedySearch) (b : batch) (hypothesis : tensor)
  : pyfloat :=
  fst (metric_call (metric g) (drop_first_column (targets b)) hypothesis).

Definition log_line (print_every timestep : Z) (cer : pyfloat) : list event :=
  if timestep mod print_every =? 0 then [EvLog (PyFloat cer)] else [].

(** The four ways a turn of the loop can go once the tag is a known one. *)
Inductive body_run (architecture : string) (mdl : model) (device : string)
    (print_every timestep : Z) (b : batch) (s : state)
  : (exn + pynum) * state -> Prop :=
| run_model_error c e :
    select_inference architecture (self_vocab (st_self s)) (inputs b)
                     (input_lengths b) device = inr c ->
    inference mdl c = inl e ->
    body_run architecture mdl device print_every timestep b s
             (inl (ModelError e), emitted s (EvInference c))
| run_index_error c hypothesis s' :
    select_inference architecture (self_vocab (st_self s)) (inputs b)
                     (input_lengths b) device = inr c ->
    inference mdl c = inr hypothesis ->
    (List.length hypothesis < List.length (targets b))%nat ->
    st_trace s' = st_trace s ++ [EvInference c] ->
    metric (st_self s') = metric (st_self s) ->
    self_vocab (st_self s') = self_vocab (st_self s) ->
    List.length (target_list (st_self s')) =
      (List.length (target_list (st_self s)) + List.length hypothesis + 1)%nat ->
    List.length (predict_list (st_self s')) =
      (List.length (predict_list (st_self s)) + List.length hypothesis)%nat ->
    body_run architecture mdl device print_every timestep b s
             (inl IndexError, s')
| run_zero_division c hypothesis :
    select_inference architecture (self_vocab (st_self s)) (inputs b)
                     (input_lengths b) device = inr c ->
    inference mdl c = inr hypothesis ->
    (List.length (targets b) <= List.length hypothesis)%nat ->
    print_every = 0 ->
    body_run architecture mdl device print_every timestep b s
             (inl ZeroDivisionError,
              {| st_self := scored (st_self s) b hypothesis;
                 st_trace := st_trace s ++ [EvInference c] |})
| run_scored c hypothesis :
    select_inference architecture (self_vocab (st_self s)) (inputs b)
                     (input_lengths b) device = inr c ->
    inference mdl c = inr hypothesis ->
    (List.length (targets b) <= List.length hypothesis)%nat ->
    print_every <> 0 ->
    body_run architecture mdl device print_every timestep b s
             (inr (PyFloat (batch_cer (st_self s) b hypothesis)),
              {| st_self := scored (st_self s) b hypothesis;
                 st_trace := st_trace s ++ [EvInference c] ++
                             log_line print_every timestep
                               (batch_cer (st_self s) b hypothesis) |}).

Definition calls_made (s : state) : nat :=
  List.length (metric_calls (metric (st_self s))).

(** The state [search] enters the loop with. *)
Definition initial (self : GreedySearch) : state :=
  {| st_self := self; st_trace := [] |}.

(** The batches in front of the first sentinel. *)
Fixpoint before_sentinel (queue : list batch) : list batch :=
  match queue with
  | [] => []
  | b :: queue' => if is_sentinel b then [] else b :: before_sentinel queue'
  end.

(** The hypothesis of a batch, empty where inference gives none. *)
Definition hypothesis_of (architecture : string) (mdl : model)
    (device : string) (v : vocab) (b : batch) : tensor :=
  match select_inference architecture v (inputs b) (input_lengths b) device with
  | inl _ => []
  | inr c => match inference mdl c with
             | inl _ => []
             | inr hypothesis => hypothesis
             end
  end.

(** A batch that goes through a turn of the loop: it is not the sentinel
    and inference gives it a hypothesis with a row for each target. *)
Definition decodes (architecture : string) (mdl : model) (device : string)
    (v : vocab) (b : batch) : Prop :=
  is_sentinel b = false /\
  exists hypothesis,
    infers architecture mdl device v b hypothesis /\
    (List.length (targets b) <= List.length hypothesis)%nat.

(** The local [cer] and the instance after the batches [bs] went through
    the loop one after the other. *)
Fixpoint run_batches (architecture : string) (mdl : model) (device : string)
    (bs : list batch) (cer : pynum) (g : GreedySearch)
  : pynum * GreedySearch :=
  match bs with
  | [] => (cer, g)
  | b :: bs' =>
      let hypothesis := hypothesis_of architecture mdl device (self_vocab g) b in
      run_batches architecture mdl device bs'
                  (PyFloat (batch_cer g b hypothesis)) (scored g b hypothesis)
  end.

(** The calls the metric receives for the batches [bs]. *)
Definition metric_args (architecture : string) (mdl : model)
    (device : string) (v : vocab) (bs : list batch) : list (tensor * tensor) :=
  map (fun b => (drop_first_column (targets b),
                 hypothesis_of architecture mdl device v b)) bs.

(** The tag and the call convention that belong to each architecture. *)
Definition tag_of (c : pyclass) : option string :=
  match c with
  | ListenAttendSpell => Some "las"%string
  | SpeechTransformer => Some "transformer"%string
  | DeepSpeech2 => Some "deepspeech2"%string
  | OtherClass _ _ => None
  end.

Definition call_convention (c : pyclass) (v : vocab) (inputs : list feature)
    (input_lengths : list Z) (device : string)
  : option (infer_call (list feature)) :=
  match c with
  | ListenAttendSpell => Some (InferLAS inputs input_lengths device)
  | SpeechTransformer => Some (InferTransformer inputs input_lengths)
  | DeepSpeech2 =>
      Some (InferDeepSpeech2 inputs input_lengths (vocab_len v))
  | OtherClass _ _ => None
  end.

(** The number of batches a call of [search] scored. *)
Definition scored_batches (self : GreedySearch) (r : result) : nat :=
  List.length (metric_calls (metric (res_self r))) -
  List.length (metric_calls (metric self)).

End Search.

Arguments Returned {C A} a.
Arguments Raised {C A} e.
Arguments Blocked {C A}.

(** ** Observations on a trace *)

Section Observations.

Context {C : Collaborators}.

(** The number of batches taken from the queue. *)
Fixpoint fetches (tr : list event) : nat :=
  match tr with
  | [] => 0%nat
  | EvGet _ :: tr' => S (fetches tr')
  | _ :: tr' => fetches tr'
  end.

(** The call the dispatch selects for each of the batches [bs]. *)
Definition selected_calls (architecture : string) (v : vocab)
    (device : string) (bs : list batch)
  : list (exn + infer_call (list feature)) :=
  map (fun b => select_inference architecture v (inputs b) (input_lengths b)
                                 device) bs.

(** The target strings and the prediction strings of the batches [bs], one
    per target row, in the order of the batches. *)
Definition decoded_targets (v : vocab) (bs : list batch) : list string :=
  flat_map (fun b => map (label_to_string v) (targets b)) bs.

Definition decoded_predictions (architecture : string) (mdl : model)
    (device : string) (v : vocab) (bs : list batch) : list string :=
  flat_map (fun b => map (label_to_string v)
                         (firstn (List.length (targets b))
                                 (hypothesis_of architecture mdl device v b)))
           bs.

(** The recorded results and the metric history of [g'] extend those of
    [g]; vocabulary and metric class are the same. *)
Definition extends (g g' : GreedySearch) : Prop :=
  self_vocab g' = self_vocab g /\
  metric_class (metric g') = metric_class (metric g) /\
  metric_vocab (metric g') = metric_vocab (metric g) /\
  (exists a, target_list g' = target_list g ++ a) /\
  (exists b, predict_list g' = predict_list g ++ b) /\
  (exists c, metric_calls (metric g') = metric_calls (metric g) ++ c).

(** The calls made on a strategy instance after its construction: [search]
    as the greedy strategy has it, [search] as a beam strategy of width
    [width] has it, and [save_result]. *)
Inductive call : Type :=
| CallSearch (mdl : model) (queue : list batch) (device : string)
             (print_every : Z)
| CallBeamSearch (width : Z) (mdl : model) (queue : list batch)
                 (device : string) (print_every : Z)
| CallSaveResult (save_path : string).





(** A batch with other target lengths. *)
Definition with_target_lengths (l : list Z) (b : batch) : batch :=
  {| inputs := inputs b; targets := targets b;
     input_lengths := input_lengths b; target_lengths := l |}.

(** The queue and the trace of a run when each batch [b] comes with the
    target lengths [f b] instead of its own. *)
Definition retarget (f : batch -> list Z) (b : batch) : batch :=
  with_target_lengths (f b) b.

Definition retarget_event (f : batch -> list Z) (e : event) : event :=
  match e with
  | EvGet b => EvGet (retarget f b)
  | _ => e
  end.

(** A computation that reads nothing of the trace and only adds to it:
    run after the trace [tr], it does what it does after the empty trace,
    with [tr] in front. *)
Definition framed {A : Type} (m : M A) : Prop :=
  forall g tr,
    m {| st_self := g; st_trace := tr |} =
    (fst (m {| st_self := g; st_trace := [] |}),
     {| st_self := st_self (snd (m {| st_self := g; st_trace := [] |}));
        st_trace := tr ++ st_trace (snd (m {| st_self := g;
                                              st_trace := [] |})) |}).

End Observations.

(** ** A small instance

    A three-token vocabulary, a model that answers each input with a
    one-label row, and an error rate given as the number of differing rows
    and the number of rows of the call.  A batch lists its inputs, targets,
    input lengths and target lengths. *)

Definition demo_label_to_string (v : list string) (labels : list Z) : string :=
  String.concat "" (map (fun i => nth (Z.to_nat i) v "?"%string) labels).

Definition demo_inference (mdl : model) (c : infer_call (list Z))
  : string + tensor :=
  match c with
  | InferLAS i _ _ => inr (map (fun x => [x]) i)
  | InferTransformer i _ => inr (map (fun x => [x]) i)
  | InferDeepSpeech2 i _ blank_label => inr (map (fun x => [x; blank_label]) i)
  end.

Definition demo_distance (t y : tensor) : Z :=
  Z.of_nat (List.length
              (filter (fun p => if list_eq_dec Z.eq_dec (fst p) (snd p)
                                then false else true)
                      (combine t y))).

Definition demo_error_rate (kind : metric_kind) (v : list string)
    (history : list (tensor * tensor)) (t y : tensor) : Z * Z :=
  (demo_distance t y, Z.of_nat (List.length t)).

Definition demo : Collaborators :=
  {| vocab := list string;
     vocab_len := fun v => Z.of_nat (List.length v);
     label_to_string := demo_label_to_string;
     feature := Z;
     pyfloat := Z * Z;
     model_exn := string;
     inference := demo_inference;
     error_rate := demo_error_rate |}.

Definition demo_vocab : list string := ["a"; "b"; "c"]%string.

Definition demo_las : module :=
  {| m_class := ListenAttendSpell; decoder := Decoder "DecoderRNN";
     training := true; m_device := "cpu" |}.

(** A network of a class of its own, with a decoder and [set_decoder],
    that is none of the three architectures. *)
Definition demo_seq2seq : module :=
  {| m_class := OtherClass "mynets.Seq2seq" [];
     decoder := Decoder "Seq2seqDecoder"; training := true;
     m_device := "cpu" |}.

(** A network of a subclass of [ListenAttendSpell]. *)
Definition demo_my_las : module :=
  {| m_class := OtherClass "othernets.MyLAS" [ListenAttendSpell];
     decoder := Decoder "DecoderRNN"; training := true; m_device := "cpu" |}.

Definition demo_self : @GreedySearch demo :=
  @Build_GreedySearch demo [] [] demo_vocab
    (@Build_metric_obj demo CharacterErrorRate demo_vocab []).

Definition demo_batch1 : @batch demo :=
  @Build_batch demo [1; 2] [[0; 1]; [0; 2]] [1; 1] [2; 2].

Definition demo_batch2 : @batch demo :=
  @Build_batch demo [0] [[0; 1]] [1] [2].

Definition demo_sentinel : @batch demo :=
  @Build_batch demo [] [] [] [].

(** No input features, but targets and lengths as in a full batch. *)
Definition demo_sentinel_with_targets : @batch demo :=
  @Build_batch demo [] [[0; 1]] [1] [2].

(** One input, two target rows: inference answers with one row. *)
Definition demo_short_batch : @batch demo :=
  @Build_batch demo [1] [[0; 1]; [0; 2]] [1] [2; 2].

(** An instance whose metric keeps running totals: the number of differing
    rows and the number of rows over all the calls made on it. *)
Definition demo_cumulative_error_rate (kind : metric_kind) (v : list string)
    (history : list (tensor * tensor)) (t y : tensor) : Z * Z :=
  (fold_right (fun p acc => demo_distance (fst p) (snd p) + acc)
              (demo_distance t y) history,
   fold_right (fun p acc => Z.of_nat (List.length (fst p)) + acc)
              (Z.of_nat (List.length t)) history).

Definition demo_cumulative : Collaborators :=
  {| vocab := list string;
     vocab_len := fun v => Z.of_nat (List.length v);
     label_to_string := demo_label_to_string;
     feature := Z;
     pyfloat := Z * Z;
     model_exn := string;
     inference := demo_inference;
     error_rate := demo_cumulative_error_rate |}.

Definition demo_cumulative_self : @GreedySearch demo_cumulative :=
  @Build_GreedySearch demo_cumulative [] [] demo_vocab
    (@Build_metric_obj demo_cumulative CharacterErrorRate demo_vocab []).

Definition demo_cumulative_batch1 : @batch demo_cumulative :=
  @Build_batch demo_cumulative [1; 2] [[0; 1]; [0; 2]] [1; 1] [2; 2].

Definition demo_cumulative_batch2 : @batch demo_cumulative :=
  @Build_batch demo_cumulative [0] [[0; 1]] [1] [2].

Definition demo_cumulative_sentinel : @batch demo_cumulative :=
  @Build_batch demo_cumulative [] [] [] [].

(** A second instance, whose model fails on a negative input feature. *)
Definition demo_strict_inference (mdl : model) (c : infer_call (list Z))
  : string + tensor :=
  let refuse (i : list Z) :=
    if existsb (fun x => x <? 0) i then inl "negative feature"%string
    else inr (map (fun x => [x]) i) in
  match c with
  | InferLAS i _ _ => refuse i
  | InferTransformer i _ => refuse i
  | InferDeepSpeech2 i _ _ => refuse i
  end.

Definition demo_strict : Collaborators :=
  {| vocab := list string;
     vocab_len := fun v => Z.of_nat (List.length v);
     label_to_string := demo_label_to_string;
     feature := Z;
     pyfloat := Z * Z;
     model_exn := string;
     inference := demo_strict_inference;
     error_rate := demo_error_rate |}.

Definition demo_strict_self : @GreedySearch demo_strict :=
  @Build_GreedySearch demo_strict [] [] demo_vocab
    (@Build_metric_obj demo_strict CharacterErrorRate demo_vocab []).

Definition demo_strict_batch : @batch demo_strict :=
  @Build_batch demo_strict [1; 2] [[0; 1]; [0; 2]] [1; 1] [2; 2].

Definition demo_strict_bad_batch : @batch demo_strict :=
  @Build_batch demo_strict [(-1)] [[0; 1]] [1] [2].

Definition demo_strict_sentinel : @batch demo_strict :=
  @Build_batch demo_strict [] [] [] [].

(** * Properties *)

Section Properties.

Context {C : Collaborators}.

Lemma skipn_nth_error (A : Type) (l : list A) (i : nat) (x : A) :
  nth_error l i = Some x -> skipn i l = x :: skipn (S i) l.
Proof.
  revert i; induction l as [|y l IH]; intros [|i] H; simpl in *;
    try discriminate.
  - now inversion H.
  - now apply IH.
Qed.

Lemma nth_error_in_range (A : Type) (l : list A) (i : nat) :
  (i < List.length l)%nat -> exists x, nth_error l i = Some x.
Proof.
  intros H. destruct (nth_error l i) eqn:E; eauto.
  apply nth_error_None in E. lia.
Qed.

(** The for loop over a hypothesis with enough rows. *)
Lemma record_pairs_ok (T H : tensor) :
  forall n i s,
    (i + n <= List.length T)%nat -> (i + n <= List.length H)%nat ->
    record_pairs T H (seq i n) s =
    (inr tt,
     {| st_self :=
          set_lists (st_self s)
            (target_list (st_self s) ++
               map (label_to_string (self_vocab (st_self s)))
                   (firstn n (skipn i T)))
            (predict_list (st_self s) ++
               map (label_to_string (self_vocab (st_self s)))
                   (firstn n (skipn i H)));
        st_trace := st_trace s |}).
Proof.
  induction n as [|n IH]; intros i s HT HH.
  - simpl. unfold ret, set_lists. rewrite !app_nil_r.
    destruct s as [[? ? ? ?] ?]; reflexivity.
  - destruct (@nth_error_in_range _ T i) as [t Et]; [lia|].
    destruct (@nth_error_in_range _ H i) as [h Eh]; [lia|].
    cbn [seq record_pairs].
    unfold bind at 1. unfold get_vocab at 1.
    unfold bind at 1. unfold getitem at 1. rewrite Et. unfold ret at 1.
    unfold bind at 1. unfold target_list_append at 1.
    unfold bind at 1. unfold getitem at 1. rewrite Eh. unfold ret at 1.
    unfold bind at 1. unfold predict_list_append at 1.
    cbn [st_self st_trace target_list predict_list self_vocab metric].
    rewrite IH by lia.
    cbn [st_self st_trace target_list predict_list self_vocab metric].
    rewrite (skipn_nth_error _ _ Et), (skipn_nth_error _ _ Eh).
    unfold set_lists.
    cbn [firstn map st_self st_trace target_list predict_list self_vocab
         metric].
    rewrite <- !app_assoc. reflexivity.
Qed.

(** The for loop over a hypothesis with too few rows: it stops with
    [IndexError] at the first missing row, after the target of that index
    was appended. *)
Lemma record_pairs_short (T H : tensor) :
  forall n i s,
    (i + n <= List.length T)%nat -> (List.length H < i + n)%nat ->
    (i <= List.length H)%nat ->
    exists s',
      record_pairs T H (seq i n) s = (inl IndexError, s') /\
      st_trace s' = st_trace s /\
      metric (st_self s') = metric (st_self s) /\
      self_vocab (st_self s') = self_vocab (st_self s) /\
      List.length (target_list (st_self s')) =
        (List.length (target_list (st_self s)) + (List.length H - i) + 1)%nat /\
      List.length (predict_list (st_self s')) =
        (List.length (predict_list (st_self s)) + (List.length H - i))%nat.
Proof.
  induction n as [|n IH]; intros i s HT HH Hi; [lia|].
  destruct (@nth_error_in_range _ T i) as [t Et]; [lia|].
  cbn [seq record_pairs].
  unfold bind at 1. unfold get_vocab at 1.
  unfold bind at 1. unfold getitem at 1. rewrite Et. unfold ret at 1.
  unfold bind at 1. unfold target_list_append at 1.
  unfold bind at 1. unfold getitem at 1.
  destruct (nth_error H i) as [h|] eqn:Eh.
  - assert (i < List.length H)%nat
      by (apply nth_error_Some; rewrite Eh; discriminate).
    unfold ret at 1. unfold bind at 1. unfold predict_list_append at 1.
    cbn [st_self st_trace target_list predict_list self_vocab metric].
    edestruct (IH (S i)) as (s' & E & Htr & Hm & Hv & Hl1 & Hl2);
      [| | | rewrite E; exists s'; split; [reflexivity|]]; try lia.
    cbn [st_self st_trace target_list predict_list self_vocab metric] in *.
    rewrite Hl1, Hl2, !length_app. cbn [List.length].
    repeat split; auto; lia.
  - apply nth_error_None in Eh.
    unfold raise. eexists; split; [reflexivity|].
    cbn [st_self st_trace target_list predict_list self_vocab metric].
    rewrite length_app. cbn [List.length].
    repeat split; auto; lia.
Qed.

(** ** One turn of the loop *)

Lemma select_inference_known architecture v (i : list feature) l d :
  known_tag architecture ->
  exists c, select_inference architecture v i l d = inr c.
Proof.
  intros [-> | [-> | ->]]; unfold select_inference; cbn; eauto.
Qed.

Lemma loop_body_run architecture mdl device print_every timestep b s :
  known_tag architecture ->
  body_run architecture mdl device print_every timestep b s
           (loop_body architecture mdl device print_every timestep b s).
Proof.
  intros Hk.
  destruct (select_inference_known (self_vocab (st_self s)) (inputs b)
              (input_lengths b) device Hk) as [c Ec].
  unfold loop_body.
  unfold bind at 1. unfold get_vocab at 1.
  unfold bind at 1. rewrite Ec. unfold lift, ret at 1.
  unfold bind at 1. unfold call_inference, bind at 1, emit at 1.
  destruct (inference mdl c) as [e|h] eqn:Ei.
  - unfold raise. eapply run_model_error; eauto.
  - unfold ret at 1. unfold bind at 1.
    destruct (Nat.le_gt_cases (List.length (targets b)) (List.length h))
      as [Hle|Hgt].
    + rewrite record_pairs_ok by (simpl; lia).
      cbn [skipn]. rewrite firstn_all.
      unfold bind at 1. unfold call_metric at 1.
      cbn [st_self st_trace set_lists target_list predict_list self_vocab
           metric].
      destruct (metric_call (metric (st_self s))
                  (drop_first_column (targets b)) h) as [v m'] eqn:Em.
      unfold bind at 1.
      destruct (print_every =? 0) eqn:Ep.
      * apply Z.eqb_eq in Ep. unfold raise.
        replace m' with (snd (metric_call (metric (st_self s))
                                (drop_first_column (targets b)) h))
          by (rewrite Em; reflexivity).
        eapply run_zero_division; eauto.
      * apply Z.eqb_neq in Ep.
        pose proof (@run_scored _ architecture mdl device print_every timestep
                      b s c h Ec Ei Hle Ep) as R.
        unfold batch_cer, scored, log_line in R. rewrite Em in R.
        cbn [fst snd] in R.
        destruct (timestep mod print_every =? 0);
          unfold emit, ret; cbn [st_self st_trace]; cbn [st_self st_trace] in R.
        -- rewrite <- app_assoc. exact R.
        -- rewrite app_nil_r in R. exact R.
    + destruct (@record_pairs_short (targets b) h (List.length (targets b)) 0%nat
                  (emitted s (EvInference c)))
        as (s' & E & Htr & Hm & Hv & Hl1 & Hl2); try (simpl; lia).
      unfold emitted in E. rewrite E.
      rewrite Nat.sub_0_r in Hl1, Hl2.
      eapply run_index_error; eauto.
Qed.

(** ** Identification *)

Lemma identify_unwrap (mdl : model) :
  identify mdl =
  if isinstance (unwrap mdl) ListenAttendSpell then inr "las"%string
  else if isinstance (unwrap mdl) SpeechTransformer
       then inr "transformer"%string
  else if isinstance (unwrap mdl) DeepSpeech2 then inr "deepspeech2"%string
  else inl (ValueError
              ("Unsupported architecture : " ++
               type_repr (m_class (unwrap mdl)))%string).
Proof. destruct mdl as [m|m]; reflexivity. Qed.

Lemma identify_known (mdl : model) (architecture : string) :
  identify mdl = inr architecture -> known_tag architecture.
Proof.
  rewrite identify_unwrap. unfold known_tag.
  destruct (isinstance (unwrap mdl) ListenAttendSpell);
    [|destruct (isinstance (unwrap mdl) SpeechTransformer);
      [|destruct (isinstance (unwrap mdl) DeepSpeech2)]];
    intros E; inversion E; auto.
Qed.

Lemma identify_unrecognized (mdl : model) :
  recognized (m_class (unwrap mdl)) = false ->
  identify mdl =
  inl (ValueError ("Unsupported architecture : " ++
                   type_repr (m_class (unwrap mdl)))%string).
Proof.
  unfold recognized. intros H.
  apply orb_false_elim in H. destruct H as [H H3].
  apply orb_false_elim in H. destruct H as [H1 H2].
  rewrite identify_unwrap. unfold isinstance. now rewrite H1, H2, H3.
Qed.

Lemma identify_recognized (mdl : model) (architecture : string) :
  identify mdl = inr architecture ->
  recognized (m_class (unwrap mdl)) = true.
Proof.
  destruct (recognized (m_class (unwrap mdl))) eqn:H; [reflexivity|].
  rewrite (identify_unrecognized _ H). discriminate.
Qed.

Lemma identify_eval_to (mdl : model) (device : string) :
  identify (model_to device (model_eval mdl)) = identify mdl.
Proof. destruct mdl; reflexivity. Qed.

(** ** The loop, whatever its outcome *)

(** Splits a turn of [loop] into the ways [loop_body] can go. *)
Ltac body_cases Hk mdl device P t b s1 :=
  let R := fresh "R" in
  let r := fresh "r" in
  let s2 := fresh "s2" in
  pose proof (@loop_body_run _ mdl device P t b s1 Hk) as R;
  destruct (loop_body _ mdl device P t b s1) as [r s2];
  inversion R as [c e Ec Ei
                 |c hypothesis s3 Ec Ei Hrows Htr Hm Hv Hlt1 Hlt2
                 |c hypothesis Ec Ei Hrows HP0
                 |c hypothesis Ec Ei Hrows HPn];
  subst; clear R.

Lemma loop_keeps_setup architecture mdl device P :
  known_tag architecture ->
  forall queue cer tot t s,
    let g' := st_self (snd (fst
                (loop architecture mdl device P queue cer tot t s))) in
    self_vocab g' = self_vocab (st_self s) /\
    metric_class (metric g') = metric_class (metric (st_self s)) /\
    metric_vocab (metric g') = metric_vocab (metric (st_self s)).
Proof.
  intros Hk; induction queue as [|b queue IH]; intros cer tot t s;
    cbn zeta; cbn [loop]; [auto|].
  destruct (Nat.eqb (List.length (inputs b)) 0); [auto|].
  fold (emitted s (EvGet b)).
  body_cases Hk mdl device P t b (emitted s (EvGet b)); cbn [fst snd]; auto.
  - cbn [emitted st_self] in *. repeat split; congruence.
  - match goal with
    | |- context [loop _ _ _ _ queue ?c' ?to ?t' ?st] =>
        destruct (IH c' to t' st) as (E1 & E2 & E3)
    end.
    cbn zeta in E1, E2, E3. rewrite E1, E2, E3. auto.
Qed.

(** A [ValueError] never comes out of the loop. *)
Lemma loop_no_value_error architecture mdl device P :
  known_tag architecture ->
  forall queue cer tot t s msg,
    fst (fst (loop architecture mdl device P queue cer tot t s))
    <> Raised (ValueError msg).
Proof.
  intros Hk; induction queue as [|b queue IH]; intros cer tot t s msg;
    cbn [loop]; [discriminate|].
  destruct (Nat.eqb (List.length (inputs b)) 0); [discriminate|].
  fold (emitted s (EvGet b)).
  body_cases Hk mdl device P t b (emitted s (EvGet b)); cbn [fst snd];
    try discriminate.
  apply IH.
Qed.



Lemma log_indices_from_app (n : nat) (tr tr' : list event) :
  log_indices_from n (tr ++ tr') =
  log_indices_from n tr ++
  log_indices_from (n + List.length (filter (fun e => match e with
                                                      | EvGet _ => true
                                                      | _ => false
                                                      end) tr)) tr'.
Proof.
  revert n; induction tr as [|[b|c|v] tr IH]; intros n; cbn.
  - now rewrite Nat.add_0_r.
  - rewrite IH. now rewrite Nat.add_succ_r.
  - apply IH.
  - now rewrite IH.
Qed.

(** The log lines of a run: with [P > 0] and [n] batches scored before,
    the batches scored by the loop are those of index [n], [n + 1], ...
    and a line is logged for those whose index [P] divides. *)
Lemma loop_log_indices architecture mdl device P :
  known_tag architecture -> 0 < P ->
  forall queue cer tot n s,
    let r := loop architecture mdl device P queue cer tot (Z.of_nat n) s in
    exists new,
      st_trace (snd (fst r)) = st_trace s ++ new /\
      (calls_made s <= calls_made (snd (fst r)))%nat /\
      log_indices_from n new =
      filter (divisible_by P)
             (seq n (calls_made (snd (fst r)) - calls_made s)).
Proof.
  intros Hk HP; induction queue as [|b queue IH]; intros cer tot n s;
    cbn zeta; cbn [loop].
  - exists []. cbn [fst snd]. rewrite app_nil_r, Nat.sub_diag.
    repeat split; auto.
  - destruct (Nat.eqb (List.length (inputs b)) 0).
    + exists [EvGet b]. cbn [fst snd st_trace]. unfold calls_made.
      cbn [st_self]. rewrite Nat.sub_diag. repeat split; auto.
    + fold (emitted s (EvGet b)).
      body_cases Hk mdl device P (Z.of_nat n) b (emitted s (EvGet b));
        cbn [fst snd].
      * exists [EvGet b; EvInference c]. unfold calls_made.
        cbn [emitted st_self st_trace]. rewrite <- app_assoc, Nat.sub_diag.
        repeat split; auto.
      * exists [EvGet b; EvInference c]. unfold calls_made.
        rewrite Htr, Hm. cbn [emitted st_self st_trace].
        rewrite <- app_assoc, Nat.sub_diag. repeat split; auto.
      * lia.
      * replace (Z.of_nat n + 1) with (Z.of_nat (S n)) by lia.
        match goal with
        | |- context [loop _ _ _ _ queue ?c ?to _ ?st] =>
            destruct (IH c to (S n) st) as (new & Htr & Hle & Hlog)
        end.
        cbn zeta in Htr, Hle, Hlog.
        match type of Htr with
        | st_trace ?X = _ => set (final := X) in *
        end.
        unfold calls_made in Hle, Hlog.
        cbn [st_self st_trace scored metric metric_call snd metric_calls]
          in Hle, Hlog, Htr.
        rewrite length_app in Hle, Hlog. cbn [List.length] in Hle, Hlog.
        cbn [emitted st_self st_trace] in *.
        exists ([EvGet b; EvInference c] ++
                log_line P (Z.of_nat n)
                  (batch_cer (st_self s) b hypothesis) ++ new).
        split; [rewrite Htr; now rewrite <- !app_assoc|].
        unfold calls_made. split; [lia|].
        replace (List.length (metric_calls (metric (st_self final))) -
                 List.length (metric_calls (metric (st_self s))))%nat
          with (S (List.length (metric_calls (metric (st_self final))) -
                   (List.length (metric_calls (metric (st_self s))) + 1)))
          by lia.
        cbn [app log_indices_from seq filter].
        unfold log_line, divisible_by at 1.
        destruct (Z.of_nat n mod P =? 0);
          cbn [app log_indices_from Nat.pred]; rewrite Hlog; reflexivity.
Qed.

(** ** Runs that return *)

Lemma hypothesis_of_infers architecture mdl device v b c hypothesis :
  select_inference architecture v (inputs b) (input_lengths b) device = inr c ->
  inference mdl c = inr hypothesis ->
  hypothesis_of architecture mdl device v b = hypothesis.
Proof. intros E1 E2. unfold hypothesis_of. now rewrite E1, E2. Qed.

Lemma run_batches_vocab architecture mdl device :
  forall bs cer g,
    self_vocab (snd (run_batches architecture mdl device bs cer g)) =
    self_vocab g.
Proof.
  induction bs as [|b bs IH]; intros cer g; cbn [run_batches]; auto.
  cbn zeta. now rewrite IH.
Qed.

(** A call that returns has put every batch in front of the first sentinel
    through one turn, and left the queue behind that sentinel. *)
Lemma loop_returned architecture mdl device P :
  known_tag architecture ->
  forall queue cer tot t s cer' s' queue',
    loop architecture mdl device P queue cer tot t s
      = (Returned cer', s', queue') ->
    (cer', st_self s') =
      run_batches architecture mdl device (before_sentinel queue) cer
                  (st_self s) /\
    Forall (decodes architecture mdl device (self_vocab (st_self s)))
           (before_sentinel queue) /\
    exists sentinel,
      is_sentinel sentinel = true /\
      queue = before_sentinel queue ++ sentinel :: queue'.
Proof.
  intros Hk; induction queue as [|b queue IH];
    intros cer tot t s cer' s' queue'; cbn [loop]; [discriminate|].
  cbn [before_sentinel].
  change (Nat.eqb (List.length (inputs b)) 0) with (is_sentinel b).
  destruct (is_sentinel b) eqn:Es.
  - intros E; inversion E; subst. cbn [run_batches st_self].
    repeat split; auto. exists b. split; auto.
  - fold (emitted s (EvGet b)).
    body_cases Hk mdl device P t b (emitted s (EvGet b)); try discriminate.
    intros E. apply IH in E. destruct E as (E1 & E2 & sentinel & E3 & E4).
    cbn [emitted st_self scored self_vocab] in *.
    cbn [run_batches]. cbn zeta.
    erewrite hypothesis_of_infers by eassumption.
    repeat split.
    + exact E1.
    + constructor; [|exact E2]. split; [exact Es|].
      exists hypothesis. split; [exists c; split; assumption|assumption].
    + exists sentinel. split; [exact E3|]. cbn [app]. now f_equal.
Qed.

(** Batches that decode, followed by the sentinel: the call returns. *)
Lemma loop_run architecture mdl device P :
  known_tag architecture -> P <> 0 ->
  forall bs sentinel rest cer tot t s,
    Forall (decodes architecture mdl device (self_vocab (st_self s))) bs ->
    is_sentinel sentinel = true ->
    exists s',
      loop architecture mdl device P (bs ++ sentinel :: rest) cer tot t s
        = (Returned (fst (run_batches architecture mdl device bs cer
                                      (st_self s))), s', rest) /\
      st_self s' = snd (run_batches architecture mdl device bs cer (st_self s)).
Proof.
  intros Hk HP; induction bs as [|b bs IH];
    intros sentinel rest cer tot t s HF Hs; cbn [app loop].
  - unfold is_sentinel in Hs. rewrite Hs. cbn [run_batches fst snd].
    eexists; split; reflexivity.
  - inversion HF as [|? ? [Hns (h & (c0 & Ec0 & Ei0) & Hle0)] HF']; subst.
    unfold is_sentinel in Hns. rewrite Hns.
    fold (emitted s (EvGet b)).
    body_cases Hk mdl device P t b (emitted s (EvGet b));
      cbn [emitted st_self] in *; try congruence.
    + assert (hypothesis = h) by congruence. subst. lia.
    + assert (c = c0) by congruence. subst c.
      assert (hypothesis = h) by congruence. subst hypothesis.
      cbn [run_batches]. cbn zeta.
      erewrite hypothesis_of_infers by eassumption.
      match goal with
      | |- context [loop _ _ _ _ _ ?c' ?to ?t' ?st] =>
          destruct (IH sentinel rest c' to t' st HF' Hs) as (s' & E & Es')
      end.
      exists s'. split; [exact E|exact Es'].
Qed.

Lemma run_batches_app architecture mdl device :
  forall bs bs' cer g,
    run_batches architecture mdl device (bs ++ bs') cer g =
    run_batches architecture mdl device bs'
      (fst (run_batches architecture mdl device bs cer g))
      (snd (run_batches architecture mdl device bs cer g)).
Proof.
  induction bs as [|b bs IH]; intros bs' cer g; cbn [app run_batches];
    [reflexivity|]. cbn zeta. apply IH.
Qed.

(** The instance after a run, in closed form. *)
Lemma run_batches_self architecture mdl device :
  forall bs cer g,
    let v := self_vocab g in
    let g' := snd (run_batches architecture mdl device bs cer g) in
    target_list g' =
      target_list g ++
      flat_map (fun b => map (label_to_string v) (targets b)) bs /\
    predict_list g' =
      predict_list g ++
      flat_map (fun b => map (label_to_string v)
                             (firstn (List.length (targets b))
                                     (hypothesis_of architecture mdl device v b)))
               bs /\
    metric_class (metric g') = metric_class (metric g) /\
    metric_vocab (metric g') = metric_vocab (metric g) /\
    metric_calls (metric g') =
      metric_calls (metric g) ++ metric_args architecture mdl device v bs.
Proof.
  induction bs as [|b bs IH]; intros cer g; cbn zeta;
    cbn [run_batches flat_map metric_args map].
  - rewrite !app_nil_r. auto.
  - cbn zeta.
    destruct (IH (PyFloat (batch_cer g b
                    (hypothesis_of architecture mdl device (self_vocab g) b)))
                 (scored g b
                    (hypothesis_of architecture mdl device (self_vocab g) b)))
      as (E1 & E2 & E3 & E4 & E5).
    cbn zeta in *. rewrite E1, E2, E3, E4, E5.
    cbn [scored target_list predict_list self_vocab metric metric_call snd
         metric_class metric_vocab metric_calls].
    rewrite <- !app_assoc. repeat split; reflexivity.
Qed.

(** ** [search] as a whole *)

Lemma search_recognized self mdl queue device P architecture :
  identify mdl = inr architecture ->
  GreedySearch_search self mdl queue device P =
  let l := loop architecture (model_to device (model_eval mdl)) device P
                queue (PyInt 0) 0 0 (initial self) in
  {| res_outcome := fst (fst l); res_self := st_self (snd (fst l));
     res_model := model_to device (model_eval mdl);
     res_queue := snd l; res_trace := st_trace (snd (fst l)) |}.
Proof.
  intros E. unfold GreedySearch_search. rewrite E. fold (initial self).
  cbn zeta. now destruct (loop _ _ _ _ _ _ _ _ _) as [[o s'] q'].
Qed.

Lemma search_unrecognized self mdl queue device P e :
  identify mdl = inl e ->
  GreedySearch_search self mdl queue device P =
  {| res_outcome := Raised e; res_self := self; res_model := mdl;
     res_queue := queue; res_trace := [] |}.
Proof. intros E. unfold GreedySearch_search. now rewrite E. Qed.

(** A [ValueError] that comes out of [search] is the one of lines 45 and
    54, raised with nothing done yet. *)
Lemma search_value_error self mdl queue device P msg :
  res_outcome (GreedySearch_search self mdl queue device P)
    = Raised (ValueError msg) ->
  identify mdl = inl (ValueError msg) /\
  GreedySearch_search self mdl queue device P =
  {| res_outcome := Raised (ValueError msg); res_self := self;
     res_model := mdl; res_queue := queue; res_trace := [] |}.
Proof.
  destruct (identify mdl) as [e|a] eqn:E.
  - rewrite (search_unrecognized _ _ _ _ _ E). cbn [res_outcome].
    intros H; inversion H; subst. auto.
  - rewrite (search_recognized _ _ _ _ _ E). cbn zeta. cbn [res_outcome].
    intros H. exfalso.
    exact (loop_no_value_error _ _ _ (identify_known _ E) _ _ _ _ _ H).
Qed.

Lemma loop_trace_extends architecture mdl device P :
  known_tag architecture ->
  forall queue cer tot t s,
  exists new,
    st_trace (snd (fst (loop architecture mdl device P queue cer tot t s))) =
    st_trace s ++ new.
Proof.
  intros Hk; induction queue as [|b queue IH]; intros cer tot t s;
    cbn [loop].
  - exists []. cbn [fst snd]. now rewrite app_nil_r.
  - destruct (Nat.eqb (List.length (inputs b)) 0);
      [exists [EvGet b]; reflexivity|].
    fold (emitted s (EvGet b)).
    body_cases Hk mdl device P t b (emitted s (EvGet b)); cbn [fst snd].
    + exists [EvGet b; EvInference c]. cbn [emitted st_trace].
      now rewrite <- app_assoc.
    + exists [EvGet b; EvInference c].
      match goal with H : st_trace _ = _ |- _ => rewrite H end.
      cbn [emitted st_trace]. now rewrite <- app_assoc.
    + exists [EvGet b; EvInference c]. cbn [emitted st_trace].
      now rewrite <- app_assoc.
    + match goal with
      | |- context [loop _ _ _ _ queue ?c' ?to ?t' ?st] =>
          destruct (IH c' to t' st) as (new & E)
      end.
      rewrite E. cbn [emitted st_trace]. rewrite <- !app_assoc.
      eexists. reflexivity.
Qed.

(** The first inference call of the loop on a batch that is not the
    sentinel is the one the tag selects. *)
Lemma loop_first_call architecture mdl device P b queue cer tot t s :
  known_tag architecture ->
  is_sentinel b = false ->
  exists c tail,
    select_inference architecture (self_vocab (st_self s)) (inputs b)
                     (input_lengths b) device = inr c /\
    st_trace (snd (fst
      (loop architecture mdl device P (b :: queue) cer tot t s))) =
    st_trace s ++ EvGet b :: EvInference c :: tail.
Proof.
  intros Hk Hb. cbn [loop]. unfold is_sentinel in Hb. rewrite Hb.
  fold (emitted s (EvGet b)).
  body_cases Hk mdl device P t b (emitted s (EvGet b)); cbn [fst snd];
    cbn [emitted st_self st_trace] in *.
  - exists c, []. split; [assumption|]. now rewrite <- app_assoc.
  - exists c, []. split; [assumption|].
    match goal with H : st_trace _ = _ |- _ => rewrite H end.
    now rewrite <- app_assoc.
  - exists c, []. split; [assumption|]. now rewrite <- app_assoc.
  - match goal with
    | |- context [loop _ _ _ _ queue ?c' ?to ?t' ?st] =>
        destruct (@loop_trace_extends architecture mdl device P Hk
                    queue c' to t' st) as (new & E)
    end.
    rewrite E. cbn [st_trace]. rewrite <- !app_assoc. cbn [app].
    eexists c, _. split; [assumption|reflexivity].
Qed.

Lemma decodes_counts architecture mdl device v (f : list Z -> string) bs :
  Forall (decodes architecture mdl device v) bs ->
  List.length
    (flat_map (fun b => map f (firstn (List.length (targets b))
                              (hypothesis_of architecture mdl device v b))) bs)
  = list_sum (map (fun b => List.length (targets b)) bs).
Proof.
  unfold list_sum.
  induction 1 as [|b bs [_ (h & (c & Ec & Ei) & Hle)] _ IH];
    cbn [flat_map map fold_right]; [reflexivity|].
  rewrite length_app, IH, length_map, length_firstn.
  rewrite (hypothesis_of_infers _ _ _ _ _ Ec Ei). lia.
Qed.

Lemma targets_counts (f : list Z -> string) (bs : list batch) :
  List.length (flat_map (fun b => map f (targets b)) bs)
  = list_sum (map (fun b => List.length (targets b)) bs).
Proof.
  unfold list_sum.
  induction bs as [|b bs IH]; cbn [flat_map map fold_right]; [reflexivity|].
  now rewrite length_app, IH, length_map.
Qed.

(** * The claims *)

(** C1. [BeamSearch.search] installs a [TopKDecoder], built from the
    decoder of the network (behind the [DataParallel] wrapper when there is
    one) and the beam width [k], as the decoder of that network, and then
    is [GreedySearch.search] on the same arguments: same value or
    exception, same instance, model, queue and trace. *)
Theorem beam_search_installs_topk_then_delegates
    (self : BeamSearch) (mdl : model) (queue : list batch) (device : string)
    (print_every : Z) :
  BeamSearch_search self mdl queue device print_every =
    BeamSearch_search_spec self mdl queue device print_every /\
  BeamSearch_search self mdl queue device print_every =
    GreedySearch_search (super self) (install_topk (k self) mdl) queue device
                        print_every /\
  decoder (unwrap (install_topk (k self) mdl)) =
    TopKDecoder (decoder (unwrap mdl)) (k self) /\
  decoder (unwrap (res_model
                     (BeamSearch_search self mdl queue device print_every))) =
    TopKDecoder (decoder (unwrap mdl)) (k self).
Proof.
  assert (E : BeamSearch_search self mdl queue device print_every =
              BeamSearch_search_spec self mdl queue device print_every)
    by (destruct mdl; reflexivity).
  repeat split; try exact E.
  - destruct mdl; reflexivity.
  - rewrite E. unfold BeamSearch_search_spec.
    destruct (identify (install_topk (k self) mdl)) as [e|a] eqn:Ei.
    + rewrite (search_unrecognized _ _ _ _ _ Ei). destruct mdl; reflexivity.
    + rewrite (search_recognized _ _ _ _ _ Ei). destruct mdl; reflexivity.
Qed.

(** C2 (amended). With a recognized model, [N >= 1] batches that decode and
    then the sentinel, [search] returns the value of the last metric call,
    the one made on the targets of the last batch without their first
    column and on its hypothesis: the values of the earlier calls are
    overwritten and [search] forms no average of its own.  The metric
    object is called once for each batch and may keep what it saw, so the
    value is that of the last batch alone only for a metric that keeps no
    history. *)
Theorem search_returns_last_batch_metric
    (self : GreedySearch) (mdl : model) (device : string) (print_every : Z)
    (architecture : string) (bs : list batch) (last sentinel : batch)
    (rest : list batch) :
  identify mdl = inr architecture ->
  print_every <> 0 ->
  Forall (decodes architecture (model_to device (model_eval mdl)) device
                  (self_vocab self)) (bs ++ [last]) ->
  is_sentinel sentinel = true ->
  let mdl' := model_to device (model_eval mdl) in
  let v := self_vocab self in
  let r := GreedySearch_search self mdl (bs ++ last :: sentinel :: rest)
                               device print_every in
  res_outcome r =
    Returned (PyFloat
      (error_rate (metric_class (metric self)) (metric_vocab (metric self))
         (metric_calls (metric self) ++ metric_args architecture mdl' device v bs)
         (drop_first_column (targets last))
         (hypothesis_of architecture mdl' device v last))) /\
  ((forall kind voc h h' t y,
       error_rate kind voc h t y = error_rate kind voc h' t y) ->
   res_outcome r =
     Returned (PyFloat
       (error_rate (metric_class (metric self)) (metric_vocab (metric self)) []
          (drop_first_column (targets last))
          (hypothesis_of architecture mdl' device v last)))).
Proof.
  intros Ei HP HF Hs mdl' v r.
  assert (E : res_outcome r =
    Returned (PyFloat
      (error_rate (metric_class (metric self)) (metric_vocab (metric self))
         (metric_calls (metric self) ++ metric_args architecture mdl' device v bs)
         (drop_first_column (targets last))
         (hypothesis_of architecture mdl' device v last)))).
  { subst r. rewrite (search_recognized _ _ _ _ _ Ei). cbn zeta.
    cbn [res_outcome].
    replace (bs ++ last :: sentinel :: rest)
      with ((bs ++ [last]) ++ sentinel :: rest)
      by (rewrite <- app_assoc; reflexivity).
    destruct (@loop_run architecture mdl' device print_every
                (identify_known _ Ei) HP (bs ++ [last]) sentinel rest
                (PyInt 0) 0 0 (initial self) HF Hs) as (s' & E & _).
    fold mdl'. rewrite E. cbn [fst]. f_equal.
    rewrite run_batches_app. cbn [run_batches fst initial st_self]. cbn zeta.
    rewrite run_batches_vocab.
    destruct (run_batches_self architecture mdl' device bs (PyInt 0) self)
      as (_ & _ & E3 & E4 & E5). cbn zeta in E3, E4, E5.
    unfold batch_cer, metric_call. cbn [fst]. rewrite E3, E4, E5.
    reflexivity. }
  split; [exact E|].
  intros Hpure. rewrite E. do 2 f_equal. apply Hpure.
Qed.

(** C3. With a recognized model and a queue whose first batch has no input
    features, whatever its targets and lengths are, [search] returns the
    integer 0 it started with, leaves the target list and the prediction
    list as they were, calls inference not once, and has taken that one
    batch from the queue. *)
Theorem sentinel_first_returns_zero
    (self : GreedySearch) (mdl : model) (device : string) (print_every : Z)
    (architecture : string) (b : batch) (rest : list batch) :
  identify mdl = inr architecture ->
  List.length (inputs b) = 0%nat ->
  let r := GreedySearch_search self mdl (b :: rest) device print_every in
  res_outcome r = Returned (PyInt 0) /\
  res_self r = self /\
  target_list (res_self r) = target_list self /\
  predict_list (res_self r) = predict_list self /\
  inference_calls (res_trace r) = [] /\
  res_trace r = [EvGet b] /\
  res_queue r = rest.
Proof.
  intros Ei Hb r. subst r. rewrite (search_recognized _ _ _ _ _ Ei).
  cbn zeta. cbn [loop]. rewrite Hb. cbn. repeat split; reflexivity.
Qed.

(** C4 (amended). A model whose class, behind the [DataParallel] wrapper
    when there is one, is none of the three architectures and inherits from
    none of them makes [search] raise the [ValueError] of an unsupported
    architecture with the queue, the instance and the model untouched: no
    batch was fetched. *)
Theorem unsupported_architecture_raises_before_any_batch
    (self : GreedySearch) (mdl : model) (queue : list batch)
    (device : string) (print_every : Z) :
  recognized (m_class (unwrap mdl)) = false ->
  let r := GreedySearch_search self mdl queue device print_every in
  res_outcome r =
    Raised (ValueError ("Unsupported architecture : " ++
                        type_repr (m_class (unwrap mdl)))%string) /\
  res_queue r = queue /\
  res_trace r = [] /\
  res_self r = self /\
  res_model r = mdl.
Proof.
  intros Hr r.
  assert (Ei : identify mdl =
               inl (ValueError ("Unsupported architecture : " ++
                                type_repr (m_class (unwrap mdl)))%string)).
  { now apply identify_unrecognized. }
  subst r. rewrite (search_unrecognized _ _ _ _ _ Ei).
  repeat split; reflexivity.
Qed.

(** C5. A network of one of the three architectures gets the tag of its
    class, ['las'], ['transformer'] or ['deepspeech2'], bare as well as
    behind a [DataParallel] wrapper; that tag selects the call convention
    of the class (the device for LAS, inputs and lengths alone for the
    transformer, the length of the vocabulary as blank label for
    DeepSpeech2); and this is the call [search] makes on the first batch. *)
Theorem architecture_tag_selects_call_convention
    (m : module) (tag : string) :
  tag_of (m_class m) = Some tag ->
  identify (Bare m) = inr tag /\
  identify (DataParallel m) = inr tag /\
  (forall v i l d,
      exists c,
        call_convention (m_class m) v i l d = Some c /\
        select_inference tag v i l d = inr c) /\
  (forall mdl self b rest device print_every,
      mdl = Bare m \/ mdl = DataParallel m ->
      is_sentinel b = false ->
      exists c,
        call_convention (m_class m) (self_vocab self) (inputs b)
                        (input_lengths b) device = Some c /\
        hd_error (inference_calls
                    (res_trace (GreedySearch_search self mdl (b :: rest)
                                                    device print_every)))
        = Some c).
Proof.
  intros Ht.
  assert (Hb : identify (Bare m) = inr tag)
    by (rewrite identify_unwrap; cbn [unwrap]; unfold isinstance;
        destruct (m_class m); inversion Ht; reflexivity).
  assert (Hd : identify (DataParallel m) = inr tag)
    by (rewrite identify_unwrap; cbn [unwrap]; unfold isinstance;
        destruct (m_class m); inversion Ht; reflexivity).
  assert (Hc : forall v i l d,
             exists c,
               call_convention (m_class m) v i l d = Some c /\
               select_inference tag v i l d = inr c)
    by (intros v i l d; destruct (m_class m); inversion Ht; subst;
        eexists; split; reflexivity).
  repeat split; auto.
  intros mdl self b rest device print_every Hm Hs.
  assert (Ei : identify mdl = inr tag) by (destruct Hm; subst; assumption).
  rewrite (search_recognized _ _ _ _ _ Ei). cbn zeta. cbn [res_trace].
  destruct (@loop_first_call tag (model_to device (model_eval mdl)) device
              print_every b rest (PyInt 0) 0 0 (initial self)
              (identify_known _ Ei) Hs) as (c & tail & E1 & E2).
  rewrite E2. cbn [initial st_trace st_self app inference_calls hd_error] in *.
  destruct (Hc (self_vocab self) (inputs b) (input_lengths b) device)
    as (c' & E3 & E4).
  exists c'. split; [exact E3|]. congruence.
Qed.

(** C6. With [print_every = P > 0], in every run of [search], however it
    ends, the batches at which a progress line was logged are those of
    index 0, P, 2P, ... among the batches that were scored, and no others;
    in a run over [N] batches that decode, followed by the sentinel, these
    are the multiples of [P] below [N]; and the line logged in a turn of
    the loop carries the metric value of that turn. *)
Theorem progress_report_cadence
    (self : GreedySearch) (mdl : model) (queue : list batch)
    (device : string) (P : Z) :
  0 < P ->
  let r := GreedySearch_search self mdl queue device P in
  log_indices (res_trace r) =
    filter (divisible_by P) (seq 0 (scored_batches self r)) /\
  (forall architecture bs sentinel rest,
      identify mdl = inr architecture ->
      Forall (decodes architecture (model_to device (model_eval mdl)) device
                      (self_vocab self)) bs ->
      is_sentinel sentinel = true ->
      queue = bs ++ sentinel :: rest ->
      log_indices (res_trace r) =
        filter (divisible_by P) (seq 0 (List.length bs))) /\
  (forall architecture t b s cer s',
      known_tag architecture ->
      loop_body architecture mdl device P t b s = (inr cer, s') ->
      exists c,
        st_trace s' =
        st_trace s ++ EvInference c ::
                 (if t mod P =? 0 then [EvLog cer] else [])).
Proof.
  intros HP r.
  assert (E : log_indices (res_trace r) =
              filter (divisible_by P) (seq 0 (scored_batches self r))).
  { subst r. unfold scored_batches, log_indices.
    destruct (identify mdl) as [e|a] eqn:Ei.
    - rewrite (search_unrecognized _ _ _ _ _ Ei). cbn [res_trace res_self].
      now rewrite Nat.sub_diag.
    - rewrite (search_recognized _ _ _ _ _ Ei). cbn zeta.
      cbn [res_trace res_self].
      destruct (@loop_log_indices a (model_to device (model_eval mdl)) device
                  P (identify_known _ Ei) HP queue (PyInt 0) 0 0%nat
                  (initial self)) as (new & Htr & _ & Hlog).
      cbn zeta in Htr, Hlog. change (Z.of_nat 0) with 0 in Htr, Hlog.
      rewrite Htr. cbn [initial st_trace app]. exact Hlog. }
  split; [exact E|]. split.
  - intros a bs sentinel rest Ei HF Hs ->. rewrite E. f_equal. f_equal.
    subst r. unfold scored_batches.
    rewrite (search_recognized _ _ _ _ _ Ei). cbn zeta. cbn [res_self].
    destruct (@loop_run a (model_to device (model_eval mdl)) device P
                (identify_known _ Ei) (Z.neq_sym _ _ (Z.lt_neq _ _ HP))
                bs sentinel rest (PyInt 0) 0 0 (initial self) HF Hs)
      as (s' & El & Es').
    rewrite El. cbn [fst snd]. rewrite Es'. cbn [initial st_self].
    destruct (run_batches_self a (model_to device (model_eval mdl)) device
                bs (PyInt 0) self) as (_ & _ & _ & _ & E5).
    cbn zeta in E5. rewrite E5. unfold metric_args.
    rewrite length_app, length_map. lia.
  - intros a t b s cer s' Hk Eb.
    pose proof (@loop_body_run a mdl device P t b s Hk) as R.
    rewrite Eb in R. inversion R; subst.
    exists c. unfold log_line. cbn [st_trace app]. reflexivity.
Qed.

(** C7. The constructor of the greedy strategy raises the [ValueError] of
    an unsupported metric for every metric string other than ['char'] and
    ['word']; with ['char'] it builds the character error rate and with
    ['word'] the word error rate, each over the given vocabulary; and
    [search] never raises that error: a [ValueError] out of [search] is the
    one of the architecture check, and the metric class of the instance is
    the one chosen at construction. *)
Theorem metric_kind_checked_at_construction (v : vocab) (kind : string) :
  (kind <> "char"%string -> kind <> "word"%string ->
   GreedySearch_init v kind =
     inl (ValueError ("Unsupported metric : " ++ kind)%string)) /\
  (exists g, GreedySearch_init v "char" = inr g /\
             metric g = {| metric_class := CharacterErrorRate;
                           metric_vocab := v; metric_calls := [] |}) /\
  (exists g, GreedySearch_init v "word" = inr g /\
             metric g = {| metric_class := WordErrorRate;
                           metric_vocab := v; metric_calls := [] |}) /\
  (forall g, GreedySearch_init v kind = inr g ->
             kind = "char"%string \/ kind = "word"%string) /\
  (forall self mdl queue device print_every,
      let r := GreedySearch_search self mdl queue device print_every in
      (forall msg, res_outcome r = Raised (ValueError msg) ->
                   identify mdl = inl (ValueError msg)) /\
      (forall bad, res_outcome r <>
                   Raised (ValueError ("Unsupported metric : " ++ bad)%string)) /\
      metric_class (metric (res_self r)) = metric_class (metric self)).
Proof.
  split; [|split; [|split; [|split]]].
  - intros H1 H2. unfold GreedySearch_init.
    apply String.eqb_neq in H1, H2. now rewrite H1, H2.
  - eexists; split; reflexivity.
  - eexists; split; reflexivity.
  - intros g. unfold GreedySearch_init.
    destruct (String.eqb_spec kind "char"); [auto|].
    destruct (String.eqb_spec kind "word"); [auto|discriminate].
  - intros self mdl queue device print_every r. split; [|split].
    + intros msg H. now apply search_value_error in H.
    + intros bad H. apply search_value_error in H. destruct H as [H _].
      rewrite identify_unwrap in H.
      destruct (isinstance (unwrap mdl) ListenAttendSpell),
        (isinstance (unwrap mdl) SpeechTransformer),
        (isinstance (unwrap mdl) DeepSpeech2); discriminate H.
    + subst r. destruct (identify mdl) as [e|a] eqn:Ei.
      * now rewrite (search_unrecognized _ _ _ _ _ Ei).
      * rewrite (search_recognized _ _ _ _ _ Ei). cbn zeta. cbn [res_self].
        destruct (@loop_keeps_setup a (model_to device (model_eval mdl))
                    device print_every (identify_known _ Ei) queue
                    (PyInt 0) 0 0 (initial self)) as (_ & E2 & _).
        exact E2.
Qed.

(** C8 (amended). The greedy strategy is built over a vocabulary and a
    metric kind, ['char'] or ['word']; the beam strategy is built over a
    vocabulary and a beam width [k] and takes no metric kind: its parent
    constructor runs with the default ['char'], so its metric is always
    the character error rate. *)
Theorem beam_strategy_always_character_error_rate (v : vocab) (width : Z) :
  (exists g, GreedySearch_init v "char" = inr g /\
             metric_class (metric g) = CharacterErrorRate /\
             self_vocab g = v) /\
  (exists g, GreedySearch_init v "word" = inr g /\
             metric_class (metric g) = WordErrorRate /\
             self_vocab g = v) /\
  (exists b, BeamSearch_init v width = inr b /\
             k b = width /\
             self_vocab (super b) = v /\
             GreedySearch_init v "char" = inr (super b) /\
             metric_class (metric (super b)) = CharacterErrorRate) /\
  (forall b, BeamSearch_init v width = inr b ->
             metric_class (metric (super b)) <> WordErrorRate).
Proof.
  repeat split.
  - eexists; repeat split; reflexivity.
  - eexists; repeat split; reflexivity.
  - eexists; repeat split; reflexivity.
  - intros b E. cbv in E. inversion E; subst. cbn. discriminate.
Qed.






(** C10. The [else] arm of the inference dispatch inside the loop is never
    taken: the tag the identification yields is ['las'], ['transformer']
    or ['deepspeech2']; for such a tag the dispatch selects a call and a
    turn of the loop raises no [ValueError]; and a [ValueError] out of
    [search] is the one raised by the identification, before the loop,
    with no batch fetched. *)
Theorem inner_unsupported_branch_unreachable (mdl : model) :
  (forall architecture, identify mdl = inr architecture ->
                        known_tag architecture) /\
  (forall architecture v i l d,
      known_tag architecture ->
      exists c, select_inference architecture v i l d = inr c) /\
  (forall architecture device print_every timestep b s msg,
      known_tag architecture ->
      fst (loop_body architecture mdl device print_every timestep b s)
      <> inl (ValueError msg)) /\
  (forall self queue device print_every msg,
      let r := GreedySearch_search self mdl queue device print_every in
      res_outcome r = Raised (ValueError msg) ->
      identify mdl = inl (ValueError msg) /\
      res_trace r = [] /\ res_queue r = queue).
Proof.
  split; [|split; [|split]].
  - intros a. apply identify_known.
  - intros a v i l d. apply select_inference_known.
  - intros a device print_every timestep b s msg Hk.
    pose proof (@loop_body_run a mdl device print_every timestep b s Hk) as R.
    destruct (loop_body a mdl device print_every timestep b s) as [r s'].
    inversion R; subst; cbn [fst]; discriminate.
  - intros self queue device print_every msg r H.
    apply search_value_error in H. destruct H as [H1 H2].
    subst r. rewrite H2. auto.
Qed.

End Properties.

(** * The claims on the small instance *)


Ltac demo_decodes :=
  repeat constructor;
  eexists; (split; [eexists; split; reflexivity | cbn; lia]).

(** Two batches and the sentinel: the value returned is the error rate of
    the second batch. *)
Lemma search_returns_last_batch_metric_witness :
  res_outcome (GreedySearch_search (C:=demo) demo_self (Bare demo_las)
                 [demo_batch1; demo_batch2; demo_sentinel] "cpu" 1)
  = Returned (PyFloat (C:=demo) (1, 1)).
Proof.
  refine (proj1 (@search_returns_last_batch_metric demo demo_self
                   (Bare demo_las) "cpu" 1 "las" [demo_batch1] demo_batch2
                   demo_sentinel [] _ _ _ _)).
  - reflexivity.
  - discriminate.
  - demo_decodes.
  - reflexivity.
Defined.

(** A first batch without inputs but with targets ends the run at once. *)
Lemma sentinel_first_returns_zero_witness :
  let r := GreedySearch_search (C:=demo) demo_self (DataParallel demo_las)
             [demo_sentinel_with_targets; demo_batch1] "cpu" 1 in
  res_outcome r = Returned (PyInt 0) /\
  res_self r = demo_self /\
  inference_calls (res_trace r) = [] /\
  res_queue r = [demo_batch1].
Proof.
  destruct (@sentinel_first_returns_zero demo demo_self
              (DataParallel demo_las) "cpu" 1 "las"
              demo_sentinel_with_targets [demo_batch1] eq_refl eq_refl)
    as (H1 & H2 & _ & _ & H5 & _ & H7).
  repeat split; assumption.
Defined.

(** A wrapped network of a class outside the three architectures is
    refused with the queue still full. *)
Lemma unsupported_architecture_raises_before_any_batch_witness :
  let r := GreedySearch_search (C:=demo) demo_self (DataParallel demo_seq2seq)
             [demo_batch1; demo_sentinel] "cpu" 1 in
  res_outcome r =
    Raised (ValueError
      "Unsupported architecture : <class 'mynets.Seq2seq'>") /\
  res_queue r = [demo_batch1; demo_sentinel] /\
  res_trace r = [].
Proof.
  destruct (@unsupported_architecture_raises_before_any_batch demo demo_self
              (DataParallel demo_seq2seq) [demo_batch1; demo_sentinel] "cpu" 1
              eq_refl) as (H1 & H2 & H3 & _).
  repeat split; assumption.
Defined.

(** The LAS network is tagged ['las'], bare or wrapped. *)
Lemma architecture_tag_selects_call_convention_witness :
  identify (C:=demo) (Bare demo_las) = inr "las"%string /\
  identify (C:=demo) (DataParallel demo_las) = inr "las"%string.
Proof.
  destruct (@architecture_tag_selects_call_convention demo demo_las "las"
              eq_refl) as (H1 & H2 & _).
  split; assumption.
Defined.

(** Three batches with [print_every = 2]: lines at the batches 0 and 2. *)
Lemma progress_report_cadence_witness :
  log_indices
    (res_trace (GreedySearch_search (C:=demo) demo_self (Bare demo_las)
                  [demo_batch1; demo_batch2; demo_batch1; demo_sentinel]
                  "cpu" 2))
  = [0%nat; 2%nat].
Proof.
  refine (proj1 (@progress_report_cadence demo demo_self (Bare demo_las)
                   [demo_batch1; demo_batch2; demo_batch1; demo_sentinel]
                   "cpu" 2 _)).
  reflexivity.
Defined.

(** ['sentence'] is no metric kind. *)
Lemma metric_kind_checked_at_construction_witness :
  GreedySearch_init (C:=demo) demo_vocab "sentence"
  = inl (ValueError "Unsupported metric : sentence").
Proof.
  refine (proj1 (@metric_kind_checked_at_construction demo demo_vocab
                   "sentence") _ _); discriminate.
Defined.

(** C8, as stated, fails: whatever the arguments, the beam strategy never
    holds the word error rate. *)
Lemma beam_constructor_takes_no_metric_kind :
  (exists b, BeamSearch_init (C:=demo) demo_vocab 3 = inr b /\
             metric_class (metric (super b)) = CharacterErrorRate) /\
  ~ (exists (v : @vocab demo) (width : Z) (b : @BeamSearch demo),
        BeamSearch_init v width = inr b /\
        metric_class (metric (super b)) = WordErrorRate).
Proof.
  split.
  - eexists; split; reflexivity.
  - intros (v & width & b & E & H). cbv in E. inversion E; subst.
    discriminate H.
Qed.

(** C2, as stated, fails: with a metric that keeps running totals, two
    batches of two rows and one row make [search] return the rate over all
    three rows, 1 of 3, where the last batch alone gives 1 of 1. *)
Lemma cumulative_metric_value_is_returned :
  let r := GreedySearch_search (C:=demo_cumulative) demo_cumulative_self
             (Bare demo_las)
             [demo_cumulative_batch1; demo_cumulative_batch2;
              demo_cumulative_sentinel] "cpu" 1 in
  let last_alone :=
    @error_rate demo_cumulative CharacterErrorRate demo_vocab []
      (drop_first_column (targets demo_cumulative_batch2))
      (@hypothesis_of demo_cumulative "las" (res_model r) "cpu" demo_vocab
                      demo_cumulative_batch2) in
  res_outcome r = Returned (PyFloat (C:=demo_cumulative) (1, 3)) /\
  last_alone = (1, 1) /\
  res_outcome r <> Returned (PyFloat last_alone).
Proof.
  cbn zeta. repeat split; try reflexivity. vm_compute. discriminate.
Qed.

(** C4, as stated, fails: the class of a network that inherits from
    [ListenAttendSpell] is none of the three, yet [search] takes it for
    ['las'], fetches the batches and returns. *)
Lemma subclass_of_architecture_is_not_refused :
  let mdl := Bare demo_my_las in
  let r := GreedySearch_search (C:=demo) demo_self mdl
             [demo_batch1; demo_sentinel] "cpu" 1 in
  m_class (unwrap mdl) <> ListenAttendSpell /\
  m_class (unwrap mdl) <> SpeechTransformer /\
  m_class (unwrap mdl) <> DeepSpeech2 /\
  identify (C:=demo) mdl = inr "las"%string /\
  res_outcome r = Returned (PyFloat (C:=demo) (0, 2)) /\
  res_queue r = [] /\
  fetches (res_trace r) = 2%nat.
Proof.
  cbn zeta. repeat split; try reflexivity; discriminate.
Qed.


(** The tag of the LAS network is a known one. *)
Lemma inner_unsupported_branch_unreachable_witness :
  known_tag "las".
Proof.
  exact (proj1 (@inner_unsupported_branch_unreachable demo (Bare demo_las))
               "las"%string eq_refl).
Defined.

(** * Further properties of the loop *)

Section Further.

Context {C : Collaborators}.

Ltac turn_cases Hk mdl device P t b s1 :=
  let R := fresh "R" in
  let r := fresh "r" in
  let s2 := fresh "s2" in
  pose proof (@loop_body_run _ _ mdl device P t b s1 Hk) as R;
  destruct (loop_body _ mdl device P t b s1) as [r s2];
  inversion R as [c e Ec Ei
                 |c hypothesis s3 Ec Ei Hrows Htr Hm Hv Hlt1 Hlt2
                 |c hypothesis Ec Ei Hrows HP0
                 |c hypothesis Ec Ei Hrows HPn];
  subst; clear R.

Lemma fetches_app (tr tr' : list event) :
  fetches (tr ++ tr') = (fetches tr + fetches tr')%nat.
Proof.
  induction tr as [|[b|c|v] tr IH]; cbn [app fetches]; auto.
  now rewrite IH.
Qed.

Lemma inference_calls_app (tr tr' : list event) :
  inference_calls (tr ++ tr') = inference_calls tr ++ inference_calls tr'.
Proof.
  induction tr as [|[b|c|v] tr IH]; cbn [app inference_calls]; auto.
  now rewrite IH.
Qed.

Lemma log_line_quiet (P t : Z) (cer : pyfloat) :
  fetches (log_line P t cer) = 0%nat /\
  inference_calls (log_line P t cer) = [].
Proof. unfold log_line. destruct (t mod P =? 0); auto. Qed.

(** ** Batches that decode, in front of anything *)

(** The loop goes through a prefix of batches that decode and is then the
    loop on what follows, with the batch counter moved on. *)
Lemma loop_prefix architecture mdl device P :
  known_tag architecture -> P <> 0 ->
  forall bs queue cer tot t s,
    Forall (decodes architecture mdl device (self_vocab (st_self s))) bs ->
    exists s' tot',
      loop architecture mdl device P (bs ++ queue) cer tot t s =
      loop architecture mdl device P queue
           (fst (run_batches architecture mdl device bs cer (st_self s)))
           tot' (t + Z.of_nat (List.length bs)) s' /\
      st_self s' = snd (run_batches architecture mdl device bs cer (st_self s)) /\
      exists new,
        st_trace s' = st_trace s ++ new /\
        fetches new = List.length bs /\
        map inr (inference_calls new) =
          selected_calls architecture (self_vocab (st_self s)) device bs.
Proof.
  intros Hk HP; induction bs as [|b bs IH]; intros queue cer tot t s HF.
  - exists s, tot. cbn [app run_batches fst snd List.length].
    rewrite Z.add_0_r. repeat split. exists [].
    rewrite app_nil_r. repeat split.
  - inversion HF as [|? ? [Hns (h & (c0 & Ec0 & Ei0) & Hle0)] HF']; subst.
    cbn [app loop]. unfold is_sentinel in Hns. rewrite Hns.
    fold (emitted s (EvGet b)).
    turn_cases Hk mdl device P t b (emitted s (EvGet b));
      cbn [emitted st_self] in *; try congruence.
    + assert (hypothesis = h) by congruence. subst. lia.
    + assert (c = c0) by congruence. subst c.
      assert (hypothesis = h) by congruence. subst hypothesis.
      cbn [run_batches]. cbn zeta.
      erewrite hypothesis_of_infers by eassumption.
      match goal with
      | |- context [loop _ _ _ _ _ ?c' ?to ?t' ?st] =>
          destruct (IH queue c' to t' st HF')
            as (s' & tot' & E & Es' & new & Etr & Ef & Ecs)
      end.
      cbn [st_self st_trace scored self_vocab] in *.
      exists s', tot'. rewrite E.
      replace (t + 1 + Z.of_nat (List.length bs))
        with (t + Z.of_nat (List.length (b :: bs)))
        by (cbn [List.length]; lia).
      repeat split; [exact Es'|].
      exists ([EvGet b; EvInference c0] ++
              log_line P t (batch_cer (st_self s) b h) ++ new).
      destruct (log_line_quiet P t (batch_cer (st_self s) b h)) as [Q1 Q2].
      repeat split.
      * rewrite Etr. now rewrite <- !app_assoc.
      * rewrite !fetches_app, Q1, Ef. reflexivity.
      * rewrite !inference_calls_app, Q2. cbn [inference_calls app map].
        rewrite Ecs. unfold selected_calls. cbn [map]. now rewrite Ec0.
Qed.

(** The trace of a call that returns. *)
Lemma loop_returned_trace architecture mdl device P :
  known_tag architecture ->
  forall queue cer tot t s cer' s' queue',
    loop architecture mdl device P queue cer tot t s
      = (Returned cer', s', queue') ->
    exists new,
      st_trace s' = st_trace s ++ new /\
      fetches new = S (List.length (before_sentinel queue)) /\
      map inr (inference_calls new) =
        selected_calls architecture (self_vocab (st_self s)) device
                       (before_sentinel queue).
Proof.
  intros Hk; induction queue as [|b queue IH];
    intros cer tot t s cer' s' queue'; cbn [loop]; [discriminate|].
  cbn [before_sentinel].
  change (Nat.eqb (List.length (inputs b)) 0) with (is_sentinel b).
  destruct (is_sentinel b) eqn:Es.
  - intros E; inversion E; subst. exists [EvGet b]. repeat split.
  - fold (emitted s (EvGet b)).
    turn_cases Hk mdl device P t b (emitted s (EvGet b)); try discriminate.
    intros E. apply IH in E. destruct E as (new & Etr & Ef & Ec').
    cbn [emitted st_self st_trace scored self_vocab] in *.
    destruct (log_line_quiet P t (batch_cer (st_self s) b hypothesis))
      as [Q1 Q2].
    exists ([EvGet b; EvInference c] ++
            log_line P t (batch_cer (st_self s) b hypothesis) ++ new).
    repeat split.
    + rewrite Etr. now rewrite <- !app_assoc.
    + rewrite !fetches_app, Q1, Ef. reflexivity.
    + rewrite !inference_calls_app, Q2. cbn [inference_calls app map].
      rewrite Ec'. unfold selected_calls. cbn [map List.length].
      now rewrite Ec.
Qed.

(** ** What the lists and the metric history keep *)

Lemma extends_refl (g : GreedySearch) : extends g g.
Proof.
  repeat split; exists []; now rewrite app_nil_r.
Qed.

Lemma extends_trans (g1 g2 g3 : GreedySearch) :
  extends g1 g2 -> extends g2 g3 -> extends g1 g3.
Proof.
  intros (V1 & K1 & M1 & [a1 A1] & [b1 B1] & [c1 C1])
         (V2 & K2 & M2 & [a2 A2] & [b2 B2] & [c2 C2]).
  repeat split; try congruence.
  - exists (a1 ++ a2). now rewrite A2, A1, app_assoc.
  - exists (b1 ++ b2). now rewrite B2, B1, app_assoc.
  - exists (c1 ++ c2). now rewrite C2, C1, app_assoc.
Qed.

Lemma record_pairs_extends (T H : tensor) :
  forall idxs s r s',
    record_pairs T H idxs s = (r, s') ->
    extends (st_self s) (st_self s') /\ st_trace s' = st_trace s.
Proof.
  induction idxs as [|idx idxs IH]; intros s r s' E; cbn [record_pairs] in E.
  - inversion E; subst. split; [apply extends_refl|reflexivity].
  - unfold bind at 1 in E. unfold get_vocab at 1 in E.
    unfold bind at 1 in E. unfold getitem at 1 in E.
    destruct (nth_error T idx) as [t|];
      [|inversion E; subst; split; [apply extends_refl|reflexivity]].
    unfold ret at 1 in E. unfold bind at 1 in E.
    unfold target_list_append at 1 in E.
    unfold bind at 1 in E. unfold getitem at 1 in E.
    destruct (nth_error H idx) as [h|].
    + unfold ret at 1 in E. unfold bind at 1 in E.
      unfold predict_list_append at 1 in E.
      cbn [st_self st_trace target_list predict_list self_vocab metric] in E.
      apply IH in E. destruct E as [E1 E2]. cbn [st_self st_trace] in E1, E2.
      split; [|exact E2].
      eapply extends_trans; [|exact E1].
      repeat split; cbn; eauto. exists []. now rewrite app_nil_r.
    + inversion E; subst. cbn [st_self st_trace]. split; [|reflexivity].
      repeat split; cbn; eauto; exists []; now rewrite app_nil_r.
Qed.

(** A turn of the loop, whatever the tag and however it ends. *)
Lemma loop_body_extends architecture mdl device P t b s :
  extends (st_self s)
          (st_self (snd (loop_body architecture mdl device P t b s))).
Proof.
  unfold loop_body.
  unfold bind at 1. unfold get_vocab at 1. unfold bind at 1.
  destruct (select_inference architecture (self_vocab (st_self s)) (inputs b)
              (input_lengths b) device) as [e|c];
    [apply extends_refl|].
  unfold lift, ret at 1.
  unfold bind at 1. unfold call_inference, bind at 1, emit at 1.
  destruct (inference mdl c) as [e|h]; [apply extends_refl|].
  unfold ret at 1. unfold bind at 1.
  match goal with
  | |- context [record_pairs ?T ?H ?i ?st] =>
      destruct (record_pairs T H i st) as [[e|[]] s1] eqn:Er;
      apply record_pairs_extends in Er; destruct Er as [E1 E2]
  end; cbn [snd st_self] in *; [exact E1|].
  unfold bind at 1. unfold call_metric at 1.
  destruct (metric_call (metric (st_self s1))
              (drop_first_column (targets b)) h) as [v m'] eqn:Em.
  unfold metric_call in Em. inversion Em; subst v m'; clear Em.
  eapply extends_trans; [exact E1|].
  unfold bind at 1.
  destruct (P =? 0); [|destruct (t mod P =? 0)];
    cbn [raise emit ret snd st_self];
    (repeat split; cbn; eauto; exists []; now rewrite app_nil_r).
Qed.

Lemma loop_extends architecture mdl device P :
  forall queue cer tot t s,
    extends (st_self s)
            (st_self (snd (fst
               (loop architecture mdl device P queue cer tot t s)))).
Proof.
  induction queue as [|b queue IH]; intros cer tot t s; cbn [loop].
  - apply extends_refl.
  - destruct (Nat.eqb (List.length (inputs b)) 0); [apply extends_refl|].
    fold (emitted s (EvGet b)).
    pose proof (loop_body_extends architecture mdl device P t b
                                  (emitted s (EvGet b))) as E.
    destruct (loop_body architecture mdl device P t b (emitted s (EvGet b)))
      as [[e|cer'] s2]; cbn [fst snd emitted st_self] in *; [exact E|].
    eapply extends_trans; [exact E|apply IH].
Qed.

(** ** A hypothesis with too few rows *)

Lemma record_pairs_short_lists (T H : tensor) :
  forall n i s,
    (i + n <= List.length T)%nat -> (List.length H < i + n)%nat ->
    (i <= List.length H)%nat ->
    record_pairs T H (seq i n) s =
    (inl IndexError,
     {| st_self :=
          set_lists (st_self s)
            (target_list (st_self s) ++
               map (label_to_string (self_vocab (st_self s)))
                   (firstn (S (List.length H - i)) (skipn i T)))
            (predict_list (st_self s) ++
               map (label_to_string (self_vocab (st_self s))) (skipn i H));
        st_trace := st_trace s |}).
Proof.
  induction n as [|n IH]; intros i s HT HH Hi; [lia|].
  destruct (@nth_error_in_range _ T i) as [t Et]; [lia|].
  cbn [seq record_pairs].
  unfold bind at 1. unfold get_vocab at 1.
  unfold bind at 1. unfold getitem at 1. rewrite Et. unfold ret at 1.
  unfold bind at 1. unfold target_list_append at 1.
  unfold bind at 1. unfold getitem at 1.
  rewrite (skipn_nth_error _ _ Et).
  destruct (nth_error H i) as [h|] eqn:Eh.
  - assert (i < List.length H)%nat
      by (apply nth_error_Some; rewrite Eh; discriminate).
    unfold ret at 1. unfold bind at 1. unfold predict_list_append at 1.
    cbn [st_self st_trace target_list predict_list self_vocab metric].
    rewrite IH by lia.
    cbn [st_self st_trace target_list predict_list self_vocab metric].
    rewrite (skipn_nth_error _ _ Eh). unfold set_lists.
    replace (S (List.length H - i)) with (S (S (List.length H - S i))) by lia.
    cbn [firstn map st_self st_trace target_list predict_list self_vocab
         metric].
    rewrite <- !app_assoc. reflexivity.
  - apply nth_error_None in Eh.
    replace (List.length H - i)%nat with 0%nat by lia.
    rewrite (skipn_all2 H) by lia.
    unfold raise, set_lists.
    cbn [firstn map st_self st_trace target_list predict_list self_vocab
         metric].
    now rewrite app_nil_r.
Qed.

Lemma loop_body_short architecture mdl device P t b s c hypothesis :
  select_inference architecture (self_vocab (st_self s)) (inputs b)
                   (input_lengths b) device = inr c ->
  inference mdl c = inr hypothesis ->
  (List.length hypothesis < List.length (targets b))%nat ->
  loop_body architecture mdl device P t b s =
  (inl IndexError,
   {| st_self :=
        set_lists (st_self s)
          (target_list (st_self s) ++
             map (label_to_string (self_vocab (st_self s)))
                 (firstn (S (List.length hypothesis)) (targets b)))
          (predict_list (st_self s) ++
             map (label_to_string (self_vocab (st_self s))) hypothesis);
      st_trace := st_trace s ++ [EvInference c] |}).
Proof.
  intros Ec Ei Hlt. unfold loop_body.
  unfold bind at 1. unfold get_vocab at 1.
  unfold bind at 1. rewrite Ec. unfold lift, ret at 1.
  unfold bind at 1. unfold call_inference, bind at 1, emit at 1.
  rewrite Ei. unfold ret at 1. unfold bind at 1.
  rewrite record_pairs_short_lists by (simpl; lia).
  cbn [skipn st_self st_trace]. now rewrite Nat.sub_0_r.
Qed.

(** ** The sign of [print_every] *)

Lemma mod_opp_zero (t P : Z) : (t mod - P =? 0) = (t mod P =? 0).
Proof.
  destruct (Z.eq_dec P 0) as [->|HP]; [reflexivity|].
  destruct (Z.eqb_spec (t mod P) 0) as [E|E].
  - apply Z.eqb_eq. now apply Z.mod_opp_r_z.
  - apply Z.eqb_neq. rewrite Z.mod_opp_r_nz by assumption.
    pose proof (Z.mod_pos_bound t P). pose proof (Z.mod_neg_bound t P). lia.
Qed.

Lemma bind_ext (A B : Type) (m : M A) (f g : A -> M B) (s : state) :
  (forall a s', f a s' = g a s') -> bind m f s = bind m g s.
Proof.
  intros E. unfold bind. destruct (m s) as [[e|a] s']; auto.
Qed.

Lemma loop_body_opp architecture mdl device P t b s :
  loop_body architecture mdl device (- P) t b s =
  loop_body architecture mdl device P t b s.
Proof.
  unfold loop_body.
  repeat (apply bind_ext; intros).
  rewrite mod_opp_zero.
  replace (- P =? 0) with (P =? 0)
    by (destruct (Z.eqb_spec P 0), (Z.eqb_spec (- P) 0); auto; lia).
  reflexivity.
Qed.

Lemma loop_opp architecture mdl device P :
  forall queue cer tot t s,
    loop architecture mdl device (- P) queue cer tot t s =
    loop architecture mdl device P queue cer tot t s.
Proof.
  induction queue as [|b queue IH]; intros cer tot t s; cbn [loop];
    [reflexivity|].
  rewrite loop_body_opp.
  destruct (Nat.eqb (List.length (inputs b)) 0); [reflexivity|].
  destruct (loop_body architecture mdl device P t b _) as [[e|cer'] s2];
    [reflexivity|apply IH].
Qed.

(** ** The model after a call *)

Lemma search_model self mdl queue device P :
  res_model (GreedySearch_search self mdl queue device P) =
  match identify mdl with
  | inl _ => mdl
  | inr _ => model_to device (model_eval mdl)
  end.
Proof.
  destruct (identify mdl) as [e|a] eqn:Ei.
  - now rewrite (search_unrecognized _ _ _ _ _ Ei).
  - now rewrite (search_recognized _ _ _ _ _ Ei).
Qed.

Lemma search_keeps_decoder self mdl queue device P :
  decoder (unwrap (res_model (GreedySearch_search self mdl queue device P))) =
  decoder (unwrap mdl) /\
  m_class (unwrap (res_model (GreedySearch_search self mdl queue device P))) =
  m_class (unwrap mdl).
Proof.
  rewrite search_model. destruct (identify mdl), mdl; split; reflexivity.
Qed.

Lemma beam_search_as_greedy (self : BeamSearch) mdl queue device P :
  BeamSearch_search self mdl queue device P =
  GreedySearch_search (super self) (install_topk (k self) mdl) queue device P.
Proof. destruct mdl; reflexivity. Qed.

(** ** Further properties of [search] *)

(** A call of [search] that returns has met a sentinel in the queue. *)
Lemma search_returned_sentinel self mdl queue device P cer :
  res_outcome (GreedySearch_search self mdl queue device P) = Returned cer ->
  exists sentinel, is_sentinel sentinel = true /\ In sentinel queue.
Proof.
  intros Hr. destruct (identify mdl) as [e|a] eqn:Hid.
  - rewrite (search_unrecognized _ _ _ _ _ Hid) in Hr. discriminate Hr.
  - rewrite (search_recognized _ _ _ _ _ Hid) in Hr. cbn zeta in Hr.
    cbn [res_outcome] in Hr.
    destruct (loop a (model_to device (model_eval mdl)) device P queue
                   (PyInt 0) 0 0 (initial self)) as [[o s'] q'] eqn:El.
    cbn [fst] in Hr. subst o.
    destruct (loop_returned _ _ _ (identify_known _ Hid) _ _ _ _ _ El)
      as (_ & _ & sentinel & Hs & Hq).
    exists sentinel. split; [exact Hs|].
    rewrite Hq. apply in_or_app. right. left. reflexivity.
Qed.

(** X1. A call of [search] that returns has taken from the queue the
    batches in front of the first sentinel and that sentinel, one fetch
    each, and has left what is behind the sentinel in the queue. *)
Theorem search_stops_at_first_sentinel
    (self : GreedySearch) (mdl : model) (queue : list batch)
    (device : string) (print_every : Z) (cer : pynum) :
  let r := GreedySearch_search self mdl queue device print_every in
  res_outcome r = Returned cer ->
  exists sentinel,
    is_sentinel sentinel = true /\
    queue = before_sentinel queue ++ sentinel :: res_queue r /\
    fetches (res_trace r) = S (List.length (before_sentinel queue)).
Proof.
  intros r Hr. subst r. destruct (identify mdl) as [e|a] eqn:Ei.
  - rewrite (search_unrecognized _ _ _ _ _ Ei) in Hr. discriminate Hr.
  - rewrite (search_recognized _ _ _ _ _ Ei) in *. cbn zeta in *.
    cbn [res_outcome res_queue res_trace] in *.
    destruct (loop a (model_to device (model_eval mdl)) device print_every
                   queue (PyInt 0) 0 0 (initial self))
      as [[o s'] q'] eqn:El.
    cbn [fst snd] in *. subst o.
    destruct (loop_returned _ _ _ (identify_known _ Ei) _ _ _ _ _ El)
      as (_ & _ & sentinel & Hs & Hq).
    destruct (loop_returned_trace _ _ _ (identify_known _ Ei) _ _ _ _ _ El)
      as (new & Etr & Ef & _).
    exists sentinel. repeat split; try assumption.
    rewrite Etr. exact Ef.
Qed.

(** X2. On a queue that holds no sentinel [search] never returns: it
    raises or stays blocked in [queue.get()]; when the model is recognized,
    [print_every] is not zero and every batch decodes, it is blocked with
    the queue empty and every batch recorded and scored. *)
Theorem search_without_sentinel_never_returns
    (self : GreedySearch) (mdl : model) (queue : list batch)
    (device : string) (print_every : Z) :
  (forall b, In b queue -> is_sentinel b = false) ->
  let mdl' := model_to device (model_eval mdl) in
  let r := GreedySearch_search self mdl queue device print_every in
  (forall cer, res_outcome r <> Returned cer) /\
  (forall architecture,
      identify mdl = inr architecture ->
      print_every <> 0 ->
      Forall (decodes architecture mdl' device (self_vocab self)) queue ->
      res_outcome r = Blocked /\
      res_queue r = [] /\
      res_self r =
        snd (run_batches architecture mdl' device queue (PyInt 0) self)).
Proof.
  intros Hq mdl' r. split.
  - intros cer Hr.
    destruct (@search_returned_sentinel self mdl queue device print_every
                cer Hr) as (sentinel & Hs & Hin).
    apply Hq in Hin. congruence.
  - intros a Ei HP HF. subst r.
    rewrite (search_recognized _ _ _ _ _ Ei). cbn zeta.
    cbn [res_outcome res_queue res_self]. fold mdl'.
    destruct (@loop_prefix a mdl' device print_every (identify_known _ Ei) HP
                queue [] (PyInt 0) 0 0 (initial self) HF)
      as (s' & tot' & E & Es' & _).
    rewrite app_nil_r in E. rewrite E. cbn [loop fst snd].
    repeat split. exact Es'.
Qed.

(** X3. With [print_every = 0] and a first batch that decodes, [search]
    raises [ZeroDivisionError] at the test of line 87: the batch has been
    recorded and scored by then, nothing has been logged, and the batches
    behind it are still in the queue. *)
Theorem zero_print_every_raises_after_first_batch
    (self : GreedySearch) (mdl : model) (device : string)
    (architecture : string) (b : batch) (rest : list batch) :
  identify mdl = inr architecture ->
  decodes architecture (model_to device (model_eval mdl)) device
          (self_vocab self) b ->
  let mdl' := model_to device (model_eval mdl) in
  let r := GreedySearch_search self mdl (b :: rest) device 0 in
  res_outcome r = Raised ZeroDivisionError /\
  res_self r =
    scored self b (hypothesis_of architecture mdl' device (self_vocab self) b) /\
  res_queue r = rest /\
  log_indices (res_trace r) = [].
Proof.
  intros Hid [Hns (h & (c0 & Ec0 & Ei0) & Hle0)] mdl' r. subst r.
  rewrite (search_recognized _ _ _ _ _ Hid). cbn zeta. subst mdl'.
  set (mdl' := model_to device (model_eval mdl)) in *.
  cbn [loop]. unfold is_sentinel in Hns. rewrite Hns.
  fold (emitted (initial self) (EvGet b)).
  turn_cases (identify_known _ Hid) mdl' device 0 0 b
             (emitted (initial self) (EvGet b));
    cbn [emitted initial st_self st_trace] in *; try congruence.
  - assert (hypothesis = h) by congruence. subst. lia.
  - assert (c = c0) by congruence. subst c.
    assert (hypothesis = h) by congruence. subst hypothesis.
    cbn [fst snd res_outcome res_self res_queue res_trace st_self st_trace].
    erewrite hypothesis_of_infers by eassumption.
    repeat split.
Qed.

(** X4. An exception of [model.inference] comes out of [search] as it is.
    The batches in front of the failing one have been recorded and scored,
    the failing batch has left nothing in the lists or in the metric, and
    the batches behind it are still in the queue. *)
Theorem inference_failure_propagates
    (self : GreedySearch) (mdl : model) (device : string) (print_every : Z)
    (architecture : string) (bs : list batch) (b : batch) (rest : list batch)
    (call : infer_call (list feature)) (err : model_exn) :
  identify mdl = inr architecture ->
  print_every <> 0 ->
  Forall (decodes architecture (model_to device (model_eval mdl)) device
                  (self_vocab self)) bs ->
  is_sentinel b = false ->
  select_inference architecture (self_vocab self) (inputs b) (input_lengths b)
                   device = inr call ->
  inference (model_to device (model_eval mdl)) call = inl err ->
  let mdl' := model_to device (model_eval mdl) in
  let r := GreedySearch_search self mdl (bs ++ b :: rest) device print_every in
  res_outcome r = Raised (ModelError err) /\
  res_self r = snd (run_batches architecture mdl' device bs (PyInt 0) self) /\
  res_queue r = rest.
Proof.
  intros Hid HP HF Hns Hc He mdl' r. subst r.
  rewrite (search_recognized _ _ _ _ _ Hid). cbn zeta. subst mdl'.
  set (mdl' := model_to device (model_eval mdl)) in *.
  destruct (@loop_prefix architecture mdl' device print_every
              (identify_known _ Hid) HP bs (b :: rest) (PyInt 0) 0 0
              (initial self) HF) as (s' & tot' & E & Es' & _).
  rewrite E. cbn [loop]. unfold is_sentinel in Hns. rewrite Hns.
  fold (emitted s' (EvGet b)).
  assert (Hvoc : self_vocab (st_self s') = self_vocab self)
    by (rewrite Es'; apply run_batches_vocab).
  turn_cases (identify_known _ Hid) mdl' device print_every
             (0 + Z.of_nat (List.length bs)) b (emitted s' (EvGet b));
    cbn [emitted st_self st_trace] in *; rewrite Hvoc in *;
    assert (c = call) by (rewrite Hc in Ec; now inversion Ec); subst c;
    try congruence.
  cbn [fst snd res_outcome res_self res_queue st_self initial emitted] in *.
  repeat split; congruence.
Qed.

(** X5. However a call of [search] ends, the instance only grows: the
    target list, the prediction list and the call history of the metric
    after the call begin with what they held before, and the vocabulary
    and the metric class are the same. *)
Theorem search_only_appends
    (self : GreedySearch) (mdl : model) (queue : list batch)
    (device : string) (print_every : Z) :
  extends self
          (res_self (GreedySearch_search self mdl queue device print_every)).
Proof.
  destruct (identify mdl) as [e|a] eqn:Hid.
  - rewrite (search_unrecognized _ _ _ _ _ Hid). apply extends_refl.
  - rewrite (search_recognized _ _ _ _ _ Hid). cbn zeta. cbn [res_self].
    apply (loop_extends a (model_to device (model_eval mdl)) device
                        print_every queue (PyInt 0) 0 0 (initial self)).
Qed.

(** X6. A call of [search] that returns has called [model.inference] once
    for each batch in front of the sentinel, in the order of the queue and
    with the arguments the tag selects, and has not called it for the
    sentinel or for any batch behind it. *)
Theorem returning_search_infers_once_per_batch
    (self : GreedySearch) (mdl : model) (queue : list batch)
    (device : string) (print_every : Z) (architecture : string)
    (cer : pynum) :
  identify mdl = inr architecture ->
  let r := GreedySearch_search self mdl queue device print_every in
  res_outcome r = Returned cer ->
  map inr (inference_calls (res_trace r)) =
    selected_calls architecture (self_vocab self) device
                   (before_sentinel queue) /\
  List.length (inference_calls (res_trace r)) =
    List.length (before_sentinel queue).
Proof.
  intros Hid r Hr. subst r.
  rewrite (search_recognized _ _ _ _ _ Hid) in *. cbn zeta in *.
  cbn [res_outcome res_trace] in *.
  destruct (loop architecture (model_to device (model_eval mdl)) device
                 print_every queue (PyInt 0) 0 0 (initial self))
    as [[o s'] q'] eqn:El.
  cbn [fst snd] in *. subst o.
  destruct (loop_returned_trace _ _ _ (identify_known _ Hid) _ _ _ _ _ El)
    as (new & Etr & _ & Ec).
  rewrite Etr. cbn [initial st_trace st_self app] in *.
  split; [exact Ec|].
  apply (f_equal (@List.length _)) in Ec.
  unfold selected_calls in Ec. now rewrite !length_map in Ec.
Qed.

(** X7. When inference answers a batch with fewer rows than the batch has
    targets, [search] raises [IndexError] in the middle of that batch: its
    targets up to and including the first one without a hypothesis row are
    in the target list, its hypothesis rows are in the prediction list,
    the metric has not been called for it, and the batches behind it are
    still in the queue. *)
Theorem short_hypothesis_raises_index_error
    (self : GreedySearch) (mdl : model) (device : string) (print_every : Z)
    (architecture : string) (bs : list batch) (b : batch) (rest : list batch)
    (h : tensor) :
  identify mdl = inr architecture ->
  print_every <> 0 ->
  Forall (decodes architecture (model_to device (model_eval mdl)) device
                  (self_vocab self)) bs ->
  is_sentinel b = false ->
  infers architecture (model_to device (model_eval mdl)) device
         (self_vocab self) b h ->
  (List.length h < List.length (targets b))%nat ->
  let mdl' := model_to device (model_eval mdl) in
  let v := self_vocab self in
  let g := snd (run_batches architecture mdl' device bs (PyInt 0) self) in
  let r := GreedySearch_search self mdl (bs ++ b :: rest) device print_every in
  res_outcome r = Raised IndexError /\
  target_list (res_self r) =
    target_list g ++
    map (label_to_string v) (firstn (S (List.length h)) (targets b)) /\
  predict_list (res_self r) = predict_list g ++ map (label_to_string v) h /\
  metric (res_self r) = metric g /\
  res_queue r = rest.
Proof.
  intros Hid HP HF Hns (call & Hc & Hi) Hlt mdl' v g r. subst r g v mdl'.
  rewrite (search_recognized _ _ _ _ _ Hid). cbn zeta.
  set (mdl' := model_to device (model_eval mdl)) in *.
  destruct (@loop_prefix architecture mdl' device print_every
              (identify_known _ Hid) HP bs (b :: rest) (PyInt 0) 0 0
              (initial self) HF) as (s' & tot' & E & Es' & _).
  rewrite E. cbn [loop]. unfold is_sentinel in Hns. rewrite Hns.
  assert (Hvoc : self_vocab (st_self s') = self_vocab self)
    by (rewrite Es'; apply run_batches_vocab).
  rewrite (@loop_body_short architecture mdl' device print_every
             (0 + Z.of_nat (List.length bs)) b
             {| st_self := st_self s'; st_trace := st_trace s' ++ [EvGet b] |}
             call h)
    by (cbn [st_self]; try rewrite Hvoc; assumption).
  cbn [fst snd res_outcome res_self res_queue st_self set_lists target_list
       predict_list metric initial] in *.
  rewrite Hvoc, Es'. repeat split.
Qed.

(** X8. On a model that has a decoder and whose class is none of the three
    architectures and inherits from none of them, [BeamSearch.search]
    raises the [ValueError] of the architecture check, but the decoder of
    the network has been replaced by the [TopKDecoder] by then; nothing
    else of the model, the instance or the queue has changed. *)
Theorem beam_search_replaces_decoder_before_refusing
    (self : BeamSearch) (mdl : model) (queue : list batch)
    (device : string) (print_every : Z) :
  recognized (m_class (unwrap mdl)) = false ->
  let r := BeamSearch_search self mdl queue device print_every in
  res_outcome r =
    Raised (ValueError ("Unsupported architecture : " ++
                        type_repr (m_class (unwrap mdl)))%string) /\
  res_model r = install_topk (k self) mdl /\
  decoder (unwrap (res_model r)) =
    TopKDecoder (decoder (unwrap mdl)) (k self) /\
  training (unwrap (res_model r)) = training (unwrap mdl) /\
  m_device (unwrap (res_model r)) = m_device (unwrap mdl) /\
  res_self r = super self /\
  res_queue r = queue /\
  res_trace r = [].
Proof.
  intros Hr r. subst r. rewrite beam_search_as_greedy.
  assert (Hid : identify (install_topk (k self) mdl) =
                inl (ValueError ("Unsupported architecture : " ++
                                 type_repr (m_class (unwrap mdl)))%string)).
  { replace (m_class (unwrap mdl))
      with (m_class (unwrap (install_topk (k self) mdl))) in *
      by (destruct mdl; reflexivity).
    now apply identify_unrecognized. }
  rewrite (search_unrecognized _ _ _ _ _ Hid).
  cbn [res_outcome res_model res_self res_queue res_trace].
  destruct mdl; repeat split.
Qed.

(** X9. Each call of [BeamSearch.search] wraps the decoder the model has
    at that moment: after two calls on the same model, whatever their
    queues and outcomes, the decoder is a [TopKDecoder] around the
    [TopKDecoder] of the first call. *)
Theorem beam_search_twice_nests_decoders
    (self1 self2 : BeamSearch) (mdl : model) (queue1 queue2 : list batch)
    (device1 device2 : string) (print_every1 print_every2 : Z) :
  let r1 := BeamSearch_search self1 mdl queue1 device1 print_every1 in
  let r2 := BeamSearch_search self2 (res_model r1) queue2 device2
                              print_every2 in
  decoder (unwrap (res_model r1)) =
    TopKDecoder (decoder (unwrap mdl)) (k self1) /\
  decoder (unwrap (res_model r2)) =
    TopKDecoder (TopKDecoder (decoder (unwrap mdl)) (k self1)) (k self2).
Proof.
  cbn zeta.
  assert (H1 : decoder (unwrap (res_model
                 (BeamSearch_search self1 mdl queue1 device1 print_every1))) =
               TopKDecoder (decoder (unwrap mdl)) (k self1)).
  { rewrite beam_search_as_greedy.
    rewrite (proj1 (search_keeps_decoder _ _ _ _ _)).
    destruct mdl; reflexivity. }
  split; [exact H1|].
  rewrite (beam_search_as_greedy self2).
  rewrite (proj1 (search_keeps_decoder _ _ _ _ _)).
  rewrite <- H1.
  destruct (res_model (BeamSearch_search self1 mdl queue1 device1
                                         print_every1)); reflexivity.
Qed.

(** X10. The sign of [print_every] does not matter: [search] with
    [- print_every] gives the result of [search] with [print_every], the
    log lines included. *)
Theorem search_ignores_sign_of_print_every
    (self : GreedySearch) (mdl : model) (queue : list batch)
    (device : string) (print_every : Z) :
  GreedySearch_search self mdl queue device (- print_every) =
  GreedySearch_search self mdl queue device print_every.
Proof.
  unfold GreedySearch_search. destruct (identify mdl); [reflexivity|].
  now rewrite loop_opp.
Qed.

(** ** Calls one after the other *)

Lemma run_batches_first_cer architecture mdl device :
  forall bs cer cer' g,
    snd (run_batches architecture mdl device bs cer g) =
    snd (run_batches architecture mdl device bs cer' g).
Proof. destruct bs as [|b bs]; intros cer cer' g; reflexivity. Qed.

Lemma prepared_model_is_fixed (mdl : model) (device : string) :
  model_to device (model_eval (model_to device (model_eval mdl))) =
  model_to device (model_eval mdl).
Proof. destruct mdl; reflexivity. Qed.

(** [search] on batches that decode, followed by a sentinel. *)
Lemma search_run self mdl device P architecture bs sentinel rest :
  identify mdl = inr architecture ->
  P <> 0 ->
  Forall (decodes architecture (model_to device (model_eval mdl)) device
                  (self_vocab self)) bs ->
  is_sentinel sentinel = true ->
  let r := GreedySearch_search self mdl (bs ++ sentinel :: rest) device P in
  let rb := run_batches architecture (model_to device (model_eval mdl)) device
                        bs (PyInt 0) self in
  res_outcome r = Returned (fst rb) /\
  res_self r = snd rb /\
  res_model r = model_to device (model_eval mdl) /\
  res_queue r = rest.
Proof.
  intros Hid HP HF Hs r rb. subst r rb.
  rewrite (search_recognized _ _ _ _ _ Hid). cbn zeta.
  destruct (@loop_run _ architecture (model_to device (model_eval mdl)) device
              P (identify_known _ Hid) HP bs sentinel rest (PyInt 0) 0 0
              (initial self) HF Hs) as (s' & E & Es').
  rewrite E. cbn [fst snd res_outcome res_self res_model res_queue].
  repeat split. exact Es'.
Qed.

(** X11. [save_result] after a call of [search] that returns, on a
    strategy fresh from its constructor, is asked to write the file at the
    given path in cp949 with the two columns ['targets'] and
    ['predictions'], in this order: one row per target row of the batches
    in front of the sentinel, in the order of arrival, and as many
    predictions as targets. *)
Theorem search_then_save_result_writes_one_row_per_sample
    (v : vocab) (kind : string) (g : GreedySearch) (mdl : model)
    (queue : list batch) (device : string) (print_every : Z)
    (architecture : string) (cer : pynum) (save_path : string) :
  GreedySearch_init v kind = inr g ->
  identify mdl = inr architecture ->
  let mdl' := model_to device (model_eval mdl) in
  let r := GreedySearch_search g mdl queue device print_every in
  res_outcome r = Returned cer ->
  let bs := before_sentinel queue in
  let file := snd (save_result (res_self r) save_path) in
  csv_path file = save_path /\
  csv_encoding file = "cp949"%string /\
  csv_columns file =
    [("targets"%string, decoded_targets v bs);
     ("predictions"%string,
      decoded_predictions architecture mdl' device v bs)] /\
  List.length (decoded_targets v bs) =
    list_sum (map (fun b => List.length (targets b)) bs) /\
  List.length (decoded_predictions architecture mdl' device v bs) =
    list_sum (map (fun b => List.length (targets b)) bs).
Proof.
  intros Hg Hid mdl' r Hr bs file.
  assert (Hinit : target_list g = [] /\ predict_list g = [] /\
                  self_vocab g = v).
  { unfold GreedySearch_init in Hg.
    destruct (String.eqb kind "char");
      [|destruct (String.eqb kind "word")];
      inversion Hg; subst; auto. }
  destruct Hinit as (Ht & Hp & Hv).
  subst file r. rewrite (search_recognized _ _ _ _ _ Hid) in *.
  cbn zeta in *. cbn [res_outcome res_self] in *. fold mdl' in Hr |- *.
  destruct (loop architecture mdl' device print_every queue (PyInt 0) 0 0
                 (initial g)) as [[o s'] q'] eqn:El.
  cbn [fst snd] in *. subst o.
  destruct (loop_returned _ _ _ (identify_known _ Hid) _ _ _ _ _ El)
    as (E1 & E2 & _).
  cbn [initial st_self] in E1, E2.
  destruct (run_batches_self architecture mdl' device (before_sentinel queue)
              (PyInt 0) g) as (T1 & T2 & _).
  cbn zeta in T1, T2. rewrite <- E1 in T1, T2. cbn [snd] in T1, T2.
  rewrite Ht, Hp, Hv in *. cbn [app] in T1, T2. fold bs in T1, T2, E2.
  unfold save_result. cbn [snd csv_path csv_encoding csv_columns].
  rewrite T1, T2. unfold decoded_targets, decoded_predictions.
  repeat split.
  - apply targets_counts.
  - now apply decodes_counts.
Qed.

(** X12. A stream cut in two by a sentinel and decoded by two calls of
    [search], the second on what the first left (instance, model and
    queue), leaves the same instance, lists and metric history, and the
    same model and queue as one call on the stream without that sentinel. *)
Theorem search_in_two_calls_records_the_same
    (self : GreedySearch) (mdl : model) (device : string)
    (print_every1 print_every2 print_every : Z) (architecture : string)
    (bs1 bs2 : list batch) (sentinel1 sentinel2 : batch) (rest : list batch) :
  identify mdl = inr architecture ->
  print_every1 <> 0 -> print_every2 <> 0 -> print_every <> 0 ->
  Forall (decodes architecture (model_to device (model_eval mdl)) device
                  (self_vocab self)) (bs1 ++ bs2) ->
  is_sentinel sentinel1 = true ->
  is_sentinel sentinel2 = true ->
  let r1 := GreedySearch_search self mdl
              (bs1 ++ sentinel1 :: bs2 ++ sentinel2 :: rest)
              device print_every1 in
  let r2 := GreedySearch_search (res_self r1) (res_model r1) (res_queue r1)
              device print_every2 in
  let r := GreedySearch_search self mdl (bs1 ++ bs2 ++ sentinel2 :: rest)
             device print_every in
  res_self r2 = res_self r /\
  res_model r2 = res_model r /\
  res_queue r2 = rest /\
  res_queue r = rest.
Proof.
  intros Hid HP1 HP2 HP HF Hs1 Hs2 r1 r2 r.
  set (mdl' := model_to device (model_eval mdl)) in *.
  apply Forall_app in HF. destruct HF as [HF1 HF2].
  destruct (@search_run self mdl device print_every1 architecture bs1
              sentinel1 (bs2 ++ sentinel2 :: rest) Hid HP1 HF1 Hs1)
    as (_ & A2 & A3 & A4).
  fold r1 mdl' in A2, A3, A4.
  assert (Hid' : identify (res_model r1) = inr architecture)
    by (rewrite A3; unfold mdl'; now rewrite identify_eval_to).
  assert (HF2' : Forall (decodes architecture
                           (model_to device (model_eval (res_model r1)))
                           device (self_vocab (res_self r1))) bs2).
  { rewrite A3, A2. unfold mdl'. rewrite prepared_model_is_fixed.
    fold mdl'. now rewrite run_batches_vocab. }
  destruct (@search_run (res_self r1) (res_model r1) device print_every2
              architecture bs2 sentinel2 rest Hid' HP2 HF2' Hs2)
    as (_ & B2 & B3 & B4).
  rewrite <- A4 in B2, B3, B4. fold r2 in B2, B3, B4.
  assert (HF12 : Forall (decodes architecture mdl' device (self_vocab self))
                        (bs1 ++ bs2))
    by (apply Forall_app; split; assumption).
  destruct (@search_run self mdl device print_every architecture (bs1 ++ bs2)
              sentinel2 rest Hid HP HF12 Hs2) as (_ & C2 & C3 & C4).
  rewrite <- app_assoc in C2, C3, C4. fold r mdl' in C2, C3, C4.
  repeat split; try assumption.
  - rewrite B2, C2, run_batches_app, A3, A2. unfold mdl'.
    rewrite prepared_model_is_fixed. apply run_batches_first_cer.
  - rewrite B3, C3, A3. unfold mdl'. apply prepared_model_is_fixed.
Qed.

(** ** The trace is only written *)

Lemma framed_ret (A : Type) (a : A) : framed (ret a).
Proof. intros g tr. unfold ret. cbn. now rewrite app_nil_r. Qed.

Lemma framed_raise (A : Type) (e : exn) : framed (@raise _ A e).
Proof. intros g tr. unfold raise. cbn. now rewrite app_nil_r. Qed.

Lemma framed_emit (e : event) : framed (emit e).
Proof. intros g tr. reflexivity. Qed.

Lemma framed_bind (A B : Type) (m : M A) (f : A -> M B) :
  framed m -> (forall a, framed (f a)) -> framed (bind m f).
Proof.
  intros Hm Hf g tr. unfold bind. rewrite (Hm g tr).
  destruct (m {| st_self := g; st_trace := [] |}) as [[e|a] [g1 tr1]];
    cbn [fst snd st_self st_trace]; [reflexivity|].
  rewrite (Hf a g1 (tr ++ tr1)), (Hf a g1 tr1).
  cbn [fst snd st_self st_trace]. now rewrite app_assoc.
Qed.

Lemma framed_lift (A : Type) (r : exn + A) : framed (lift r).
Proof. destruct r; [apply framed_raise|apply framed_ret]. Qed.

Lemma framed_getitem (t : tensor) (idx : nat) : framed (getitem t idx).
Proof.
  unfold getitem. destruct (nth_error t idx);
    [apply framed_ret|apply framed_raise].
Qed.

Lemma framed_record_pairs (T H : tensor) (idxs : list nat) :
  framed (record_pairs T H idxs).
Proof.
  induction idxs as [|idx idxs IH]; cbn [record_pairs];
    [apply framed_ret|].
  apply framed_bind; [intros g tr; cbn; now rewrite app_nil_r|intros v].
  apply framed_bind; [apply framed_getitem|intros t].
  apply framed_bind; [intros g tr; cbn; now rewrite app_nil_r|intros _].
  apply framed_bind; [apply framed_getitem|intros h].
  apply framed_bind; [intros g tr; cbn; now rewrite app_nil_r|intros _].
  exact IH.
Qed.

Lemma framed_loop_body architecture mdl device P t b :
  framed (loop_body architecture mdl device P t b).
Proof.
  unfold loop_body.
  apply framed_bind; [intros g tr; cbn; now rewrite app_nil_r|intros v].
  apply framed_bind; [apply framed_lift|intros c].
  apply framed_bind.
  { unfold call_inference. apply framed_bind; [apply framed_emit|intros _].
    destruct (inference mdl c); [apply framed_raise|apply framed_ret]. }
  intros h.
  apply framed_bind; [apply framed_record_pairs|intros _].
  apply framed_bind.
  { intros g tr. unfold call_metric. cbn. now rewrite app_nil_r. }
  intros cer.
  apply framed_bind; [|intros _; apply framed_ret].
  destruct (P =? 0); [apply framed_raise|].
  destruct (t mod P =? 0); [apply framed_emit|apply framed_ret].
Qed.

(** What a turn of the loop adds to the trace holds no fetch. *)
Lemma loop_body_fetches_nothing architecture mdl device P t b g f :
  known_tag architecture ->
  map (retarget_event f)
      (st_trace (snd (loop_body architecture mdl device P t b
                                {| st_self := g; st_trace := [] |}))) =
  st_trace (snd (loop_body architecture mdl device P t b
                           {| st_self := g; st_trace := [] |})).
Proof.
  intros Hk.
  turn_cases Hk mdl device P t b {| st_self := g; st_trace := [] |};
    cbn [snd emitted st_trace app map retarget_event] in *;
    try reflexivity.
  - rewrite Htr. reflexivity.
  - unfold log_line. destruct (t mod P =? 0); reflexivity.
Qed.

Lemma loop_retarget architecture mdl device P f :
  known_tag architecture ->
  forall queue cer tot t g tr,
    loop architecture mdl device P (map (retarget f) queue) cer tot t
         {| st_self := g; st_trace := map (retarget_event f) tr |} =
    let r := loop architecture mdl device P queue cer tot t
                  {| st_self := g; st_trace := tr |} in
    (fst (fst r),
     {| st_self := st_self (snd (fst r));
        st_trace := map (retarget_event f) (st_trace (snd (fst r))) |},
     map (retarget f) (snd r)).
Proof.
  intros Hk; induction queue as [|b queue IH]; intros cer tot t g tr;
    cbn zeta; cbn [map loop]; [reflexivity|].
  cbn [retarget with_target_lengths inputs st_self st_trace].
  destruct (Nat.eqb (List.length (inputs b)) 0).
  - cbn [fst snd st_self st_trace]. now rewrite map_app.
  - change (loop_body architecture mdl device P t (retarget f b))
      with (loop_body architecture mdl device P t b).
    change (targets (retarget f b)) with (targets b).
    rewrite (framed_loop_body architecture mdl device P t b g
               (map (retarget_event f) tr ++ [EvGet (retarget f b)])).
    rewrite (framed_loop_body architecture mdl device P t b g
               (tr ++ [EvGet b])).
    pose proof (@loop_body_fetches_nothing architecture mdl device P t b g f
                  Hk) as Hq.
    destruct (loop_body architecture mdl device P t b
                {| st_self := g; st_trace := [] |}) as [[e|cer'] [g1 tr1]];
      cbn [fst snd st_self st_trace] in *.
    + rewrite !map_app, Hq. reflexivity.
    + rewrite <- (IH cer' (tot + Z.of_nat (List.length (targets b))) (t + 1)
                     g1 ((tr ++ [EvGet b]) ++ tr1)).
      rewrite !map_app, Hq. reflexivity.
Qed.

Lemma inference_calls_retarget f (tr : list event) :
  inference_calls (map (retarget_event f) tr) = inference_calls tr.
Proof.
  induction tr as [|[b|c|v] tr IH]; cbn [map retarget_event inference_calls];
    auto. now rewrite IH.
Qed.

Lemma log_indices_from_retarget f (tr : list event) :
  forall n,
    log_indices_from n (map (retarget_event f) tr) = log_indices_from n tr.
Proof.
  induction tr as [|[b|c|v] tr IH]; intros n;
    cbn [map retarget_event log_indices_from]; auto. now rewrite IH.
Qed.

(** X13. [search] never reads the target lengths of a batch: with other
    target lengths in every batch of the queue the call ends the same way,
    leaves the same instance and model, makes the same inference calls and
    logs at the same batches; the batches left in the queue are those it
    would have left. *)
Theorem search_never_reads_target_lengths
    (f : batch -> list Z) (self : GreedySearch) (mdl : model)
    (queue : list batch) (device : string) (print_every : Z) :
  let r := GreedySearch_search self mdl queue device print_every in
  let r' := GreedySearch_search self mdl (map (retarget f) queue) device
                                print_every in
  res_outcome r' = res_outcome r /\
  res_self r' = res_self r /\
  res_model r' = res_model r /\
  res_queue r' = map (retarget f) (res_queue r) /\
  res_trace r' = map (retarget_event f) (res_trace r) /\
  inference_calls (res_trace r') = inference_calls (res_trace r) /\
  log_indices (res_trace r') = log_indices (res_trace r).
Proof.
  intros r r'.
  assert (E : res_outcome r' = res_outcome r /\
              res_self r' = res_self r /\
              res_model r' = res_model r /\
              res_queue r' = map (retarget f) (res_queue r) /\
              res_trace r' = map (retarget_event f) (res_trace r)).
  { subst r r'. destruct (identify mdl) as [e|a] eqn:Hid.
    - rewrite !(search_unrecognized _ _ _ _ _ Hid).
      cbn [res_outcome res_self res_model res_queue res_trace map].
      repeat split.
    - rewrite !(search_recognized _ _ _ _ _ Hid). cbn zeta.
      pose proof (@loop_retarget a (model_to device (model_eval mdl)) device
                    print_every f (identify_known _ Hid) queue (PyInt 0) 0 0
                    self []) as L.
      cbn zeta in L. cbn [map] in L. fold (initial self) in L.
      rewrite L. cbn [fst snd res_outcome res_self res_model res_queue
                      res_trace st_self st_trace].
      repeat split. }
  destruct E as (E1 & E2 & E3 & E4 & E5).
  repeat split; try assumption.
  - rewrite E5. apply inference_calls_retarget.
  - rewrite E5. apply log_indices_from_retarget.
Qed.

End Further.

(** * The further properties on the small instances *)

(** A batch, the sentinel and one more batch: two fetches, the last batch
    stays in the queue. *)
Lemma search_stops_at_first_sentinel_witness :
  let r := GreedySearch_search (C:=demo) demo_self (Bare demo_las)
             [demo_batch1; demo_sentinel; demo_batch2] "cpu" 1 in
  exists sentinel,
    is_sentinel sentinel = true /\
    [demo_batch1; demo_sentinel; demo_batch2] =
      before_sentinel [demo_batch1; demo_sentinel; demo_batch2] ++
      sentinel :: res_queue r /\
    fetches (res_trace r) = 2%nat.
Proof.
  refine (@search_stops_at_first_sentinel demo demo_self (Bare demo_las)
            [demo_batch1; demo_sentinel; demo_batch2] "cpu" 1
            (PyFloat (C:=demo) (0, 2)) _).
  reflexivity.
Defined.

(** A queue of one batch and no sentinel: the call stays blocked. *)
Lemma search_without_sentinel_never_returns_witness :
  res_outcome (GreedySearch_search (C:=demo) demo_self (Bare demo_las)
                 [demo_batch1] "cpu" 1) = Blocked.
Proof.
  refine (proj1 (proj2 (@search_without_sentinel_never_returns demo demo_self
                          (Bare demo_las) [demo_batch1] "cpu" 1 _)
                       "las"%string _ _ _)).
  - intros b [<-|[]]. reflexivity.
  - reflexivity.
  - discriminate.
  - demo_decodes.
Defined.

(** [print_every = 0] on one batch. *)
Lemma zero_print_every_raises_after_first_batch_witness :
  let r := GreedySearch_search (C:=demo) demo_self (Bare demo_las)
             [demo_batch1; demo_sentinel] "cpu" 0 in
  res_outcome r = Raised ZeroDivisionError /\
  res_queue r = [demo_sentinel].
Proof.
  destruct (@zero_print_every_raises_after_first_batch demo demo_self
              (Bare demo_las) "cpu" "las" demo_batch1 [demo_sentinel])
    as (H1 & _ & H3 & _).
  - reflexivity.
  - demo_decodes.
  - split; assumption.
Defined.

(** The second batch holds a negative feature, which the strict model
    refuses. *)
Lemma inference_failure_propagates_witness :
  let r := GreedySearch_search (C:=demo_strict) demo_strict_self
             (Bare demo_las)
             [demo_strict_batch; demo_strict_bad_batch; demo_strict_sentinel]
             "cpu" 1 in
  res_outcome r =
    Raised (ModelError (C:=demo_strict) "negative feature"%string) /\
  res_queue r = [demo_strict_sentinel].
Proof.
  destruct (@inference_failure_propagates demo_strict demo_strict_self
              (Bare demo_las) "cpu" 1 "las" [demo_strict_batch]
              demo_strict_bad_batch [demo_strict_sentinel]
              (InferLAS [(-1)] [1] "cpu") "negative feature"%string)
    as (H1 & _ & H3).
  - reflexivity.
  - discriminate.
  - repeat constructor.
    eexists; (split; [eexists; split; reflexivity | cbn; lia]).
  - reflexivity.
  - reflexivity.
  - reflexivity.
  - split; assumption.
Defined.

(** Two batches and the sentinel: two inference calls. *)
Lemma returning_search_infers_once_per_batch_witness :
  inference_calls
    (res_trace (GreedySearch_search (C:=demo) demo_self (Bare demo_las)
                  [demo_batch1; demo_batch2; demo_sentinel] "cpu" 1))
  = [InferLAS [1; 2] [1; 1] "cpu"; InferLAS [0] [1] "cpu"].
Proof.
  pose proof (proj1 (@returning_search_infers_once_per_batch demo demo_self
                       (Bare demo_las)
                       [demo_batch1; demo_batch2; demo_sentinel] "cpu" 1
                       "las" (PyFloat (C:=demo) (1, 1)) eq_refl eq_refl))
    as H.
  cbv in H. cbv. now inversion H.
Defined.

(** One input and two target rows. *)
Lemma short_hypothesis_raises_index_error_witness :
  let r := GreedySearch_search (C:=demo) demo_self (Bare demo_las)
             [demo_short_batch; demo_sentinel] "cpu" 1 in
  res_outcome r = Raised IndexError /\
  res_queue r = [demo_sentinel].
Proof.
  destruct (@short_hypothesis_raises_index_error demo demo_self
              (Bare demo_las) "cpu" 1 "las" [] demo_short_batch
              [demo_sentinel] [[1]])
    as (H1 & _ & _ & _ & H5).
  - reflexivity.
  - discriminate.
  - constructor.
  - reflexivity.
  - eexists; split; reflexivity.
  - cbn. lia.
  - split; assumption.
Defined.

(** A wrapped network of a class outside the three architectures is
    refused, with a [TopKDecoder] around its decoder. *)
Lemma beam_search_replaces_decoder_before_refusing_witness :
  let r := BeamSearch_search (C:=demo) (@Build_BeamSearch demo demo_self 5)
             (DataParallel demo_seq2seq) [demo_sentinel] "cpu" 1 in
  decoder (unwrap (res_model r)) = TopKDecoder (Decoder "Seq2seqDecoder") 5 /\
  res_queue r = [demo_sentinel].
Proof.
  destruct (@beam_search_replaces_decoder_before_refusing demo
              (@Build_BeamSearch demo demo_self 5) (DataParallel demo_seq2seq)
              [demo_sentinel] "cpu" 1 eq_refl)
    as (_ & _ & H3 & _ & _ & _ & H7 & _).
  split; assumption.
Defined.

(** Three samples in two batches: three rows in each column. *)
Lemma search_then_save_result_writes_one_row_per_sample_witness :
  csv_columns
    (snd (save_result
            (res_self (GreedySearch_search (C:=demo) demo_self (Bare demo_las)
                         [demo_batch1; demo_batch2; demo_sentinel] "cpu" 1))
            "result.csv"))
  = [("targets", ["ab"; "ac"; "ab"]); ("predictions", ["b"; "c"; "a"])]%string.
Proof.
  destruct (@search_then_save_result_writes_one_row_per_sample demo
              demo_vocab "char" demo_self (Bare demo_las)
              [demo_batch1; demo_batch2; demo_sentinel] "cpu" 1 "las"
              (PyFloat (C:=demo) (1, 1)) "result.csv" eq_refl eq_refl eq_refl)
    as (_ & _ & H3 & _).
  exact H3.
Defined.

(** A stream of two batches, cut after the first. *)
Lemma search_in_two_calls_records_the_same_witness :
  let r1 := GreedySearch_search (C:=demo) demo_self (Bare demo_las)
              [demo_batch1; demo_sentinel; demo_batch2; demo_sentinel]
              "cpu" 1 in
  let r2 := GreedySearch_search (res_self r1) (res_model r1) (res_queue r1)
              "cpu" 2 in
  let r := GreedySearch_search (C:=demo) demo_self (Bare demo_las)
             [demo_batch1; demo_batch2; demo_sentinel] "cpu" 3 in
  res_self r2 = res_self r.
Proof.
  refine (proj1 (@search_in_two_calls_records_the_same demo demo_self
                   (Bare demo_las) "cpu" 1 2 3 "las" [demo_batch1]
                   [demo_batch2] demo_sentinel demo_sentinel []
                   _ _ _ _ _ _ _)).
  - reflexivity.
  - discriminate.
  - discriminate.
  - discriminate.
  - demo_decodes.
  - reflexivity.
  - reflexivity.
Defined.
